(** * Settlement pipeline of the auction marketplace

    A shallow embedding of the controllers that move tokens between a
    bidder, an escrow hold and a vendor:

    - [bidController.js]: [escrowBidTokens], [placeBid],
      [finalizeBidPlacement], [setWinningBid], [retractBid];
    - [auctionController.js]: [closeAuction], [confirmReceipt], and the
      escrow controller that the same file carries: [createEscrow],
      [releaseToVendor], [refundToBuyer], [releaseEscrow];
    - [deliveryConfirmationController.js]: [createConfirmation],
      [confirmDelivery], [openDispute];
    - the dispute controller: [raiseDispute], [partialResolution].

    Conventions of the embedding.

    - A Mongoose collection is the list of its documents in insertion
      order; [findOne] returns the first match, a sorted [findOne] the first
      document among those with the extreme key.
    - [doc.save()] writes the in-memory document back over the stored
      document with the same [_id].
    - Token amounts are JavaScript numbers in the source; they are exact
      rationals here, so rounding of binary floating point is not modelled.
      A field that may be [undefined] or [null] is an [option].
    - Time is a number of milliseconds; one request reads one instant.
      A calendar day is 86400000 ms (no daylight-saving shift).
    - A controller is a computation in a state-and-exception monad over a
      [World]: the committed database, the view of the open transaction (if
      any), an id generator, the clock, and a fuse that makes the n-th
      awaited store or service call of the request reject.
    - A call made with [{ session }] works on the transaction's view; a call
      made without it works on the committed database at once, and stays
      whatever happens to the transaction.  A helper declared with the single
      parameter [auctionId] drops the [session] its caller passes.
    - An identifier that a controller uses without importing it ([mongoose],
      [User], [DeliveryConfirmation], ...) is the like-named Mongoose model. *)

From Stdlib Require Import List Bool Arith ZArith QArith Qminmax String Lia Lqa.
Import ListNotations.

Set Implicit Arguments.

Definition Id := nat.
Definition Time := Z.
Bind Scope nat_scope with Id.
Bind Scope Z_scope with Time.

(** ** Documents *)

Module User.
Record t := mk
  { _id : Id;
    balance : Q;
    escrowedBalance : option Q }.

Definition set_balance (x : Q) (u : t) : t :=
  mk (_id u) x (escrowedBalance u).
Definition set_escrowedBalance (x : option Q) (u : t) : t :=
  mk (_id u) (balance u) x.
End User.

Module Auction.
Record t := mk
  { _id : Id;
    vendor : Id;
    startingPrice : Q;
    currentPrice : Q;
    highestBidder : option Id;
    bidCount : nat;
    endTime : Time;
    isActive : bool;
    isDigital : bool;
    winningBidAmount : option Q;
    endedAt : option Time;
    winnerConfirmed : bool;
    vendorPaid : bool }.

Definition set_currentPrice (x : Q) (a : t) : t :=
  mk (_id a) (vendor a) (startingPrice a) x (highestBidder a) (bidCount a)
     (endTime a) (isActive a) (isDigital a) (winningBidAmount a) (endedAt a)
     (winnerConfirmed a) (vendorPaid a).
Definition set_highestBidder (x : option Id) (a : t) : t :=
  mk (_id a) (vendor a) (startingPrice a) (currentPrice a) x (bidCount a)
     (endTime a) (isActive a) (isDigital a) (winningBidAmount a) (endedAt a)
     (winnerConfirmed a) (vendorPaid a).
Definition set_bidCount (x : nat) (a : t) : t :=
  mk (_id a) (vendor a) (startingPrice a) (currentPrice a) (highestBidder a) x
     (endTime a) (isActive a) (isDigital a) (winningBidAmount a) (endedAt a)
     (winnerConfirmed a) (vendorPaid a).
Definition set_endTime (x : Time) (a : t) : t :=
  mk (_id a) (vendor a) (startingPrice a) (currentPrice a) (highestBidder a)
     (bidCount a) x (isActive a) (isDigital a) (winningBidAmount a) (endedAt a)
     (winnerConfirmed a) (vendorPaid a).
Definition set_winningBidAmount (x : option Q) (a : t) : t :=
  mk (_id a) (vendor a) (startingPrice a) (currentPrice a) (highestBidder a)
     (bidCount a) (endTime a) (isActive a) (isDigital a) x (endedAt a)
     (winnerConfirmed a) (vendorPaid a).
Definition set_winnerConfirmed (x : bool) (a : t) : t :=
  mk (_id a) (vendor a) (startingPrice a) (currentPrice a) (highestBidder a)
     (bidCount a) (endTime a) (isActive a) (isDigital a) (winningBidAmount a)
     (endedAt a) x (vendorPaid a).
Definition set_vendorPaid (x : bool) (a : t) : t :=
  mk (_id a) (vendor a) (startingPrice a) (currentPrice a) (highestBidder a)
     (bidCount a) (endTime a) (isActive a) (isDigital a) (winningBidAmount a)
     (endedAt a) (winnerConfirmed a) x.
End Auction.

Module Bid.
Inductive Status := pending | active.

Record t := mk
  { _id : Id;
    auction : Id;
    bidder : Id;
    amount : Q;
    status : Status;
    isWinningBid : bool;
    flaggedForReview : bool;
    isRetracted : bool;
    retractionPenalty : option Q;
    createdAt : Time }.

Definition set_status (x : Status) (b : t) : t :=
  mk (_id b) (auction b) (bidder b) (amount b) x (isWinningBid b)
     (flaggedForReview b) (isRetracted b) (retractionPenalty b) (createdAt b).
Definition set_isWinningBid (x : bool) (b : t) : t :=
  mk (_id b) (auction b) (bidder b) (amount b) (status b) x
     (flaggedForReview b) (isRetracted b) (retractionPenalty b) (createdAt b).
Definition set_isRetracted (x : bool) (b : t) : t :=
  mk (_id b) (auction b) (bidder b) (amount b) (status b) (isWinningBid b)
     (flaggedForReview b) x (retractionPenalty b) (createdAt b).
Definition set_retractionPenalty (x : option Q) (b : t) : t :=
  mk (_id b) (auction b) (bidder b) (amount b) (status b) (isWinningBid b)
     (flaggedForReview b) (isRetracted b) x (createdAt b).
End Bid.

Module Escrow.
Inductive Status := HELD | RELEASED | REFUNDED | DISPUTED.

Definition Status_eqb (x y : Status) : bool :=
  match x, y with
  | HELD, HELD | RELEASED, RELEASED | REFUNDED, REFUNDED
  | DISPUTED, DISPUTED => true
  | _, _ => false
  end.

Record t := mk
  { _id : Id;
    auction : Id;
    buyer : Id;
    vendor : Id;
    tokenAmount : Q;
    status : Status;
    releaseReason : option string;
    releasedAt : option Time }.

Definition set_status (x : Status) (e : t) : t :=
  mk (_id e) (auction e) (buyer e) (vendor e) (tokenAmount e) x
     (releaseReason e) (releasedAt e).
Definition set_releaseReason (x : option string) (e : t) : t :=
  mk (_id e) (auction e) (buyer e) (vendor e) (tokenAmount e) (status e)
     x (releasedAt e).
Definition set_releasedAt (x : option Time) (e : t) : t :=
  mk (_id e) (auction e) (buyer e) (vendor e) (tokenAmount e) (status e)
     (releaseReason e) x.
End Escrow.

Module DeliveryConfirmation.
Inductive Status :=
  PENDING_SHIPMENT | PENDING_DELIVERY | SHIPPED | DELIVERED | DISPUTED
| CANCELLED.

Record t := mk
  { _id : Id;
    auction : Id;
    vendor : Id;
    buyer : Id;
    status : Status;
    deliveredAt : option Time;
    disputeReason : option string }.

Definition set_status (x : Status) (c : t) : t :=
  mk (_id c) (auction c) (vendor c) (buyer c) x (deliveredAt c)
     (disputeReason c).
Definition set_deliveredAt (x : option Time) (c : t) : t :=
  mk (_id c) (auction c) (vendor c) (buyer c) (status c) x
     (disputeReason c).
Definition set_disputeReason (x : option string) (c : t) : t :=
  mk (_id c) (auction c) (vendor c) (buyer c) (status c) (deliveredAt c) x.
End DeliveryConfirmation.

Module Dispute.
Inductive Status := OPEN | UNDER_REVIEW | RESOLVED.

Record t := mk
  { _id : Id;
    auction : Id;
    transaction : Id;
    raisedBy : Id;
    against : Id;
    reason : string;
    status : Status }.
End Dispute.

Module TokenTransaction.
Inductive Type_ :=
  ESCROW_HOLD | PAYOUT_VENDOR | PLATFORM_FEE | ESCROW_REFUND
| DISPUTE_PARTIAL_REFUND | DISPUTE_PARTIAL_PAYOUT.

Inductive Status := PENDING | SUCCESS | FAILED.

Definition Type_eqb (x y : Type_) : bool :=
  match x, y with
  | ESCROW_HOLD, ESCROW_HOLD | PAYOUT_VENDOR, PAYOUT_VENDOR
  | PLATFORM_FEE, PLATFORM_FEE | ESCROW_REFUND, ESCROW_REFUND
  | DISPUTE_PARTIAL_REFUND, DISPUTE_PARTIAL_REFUND
  | DISPUTE_PARTIAL_PAYOUT, DISPUTE_PARTIAL_PAYOUT => true
  | _, _ => false
  end.

Definition Status_eqb (x y : Status) : bool :=
  match x, y with
  | PENDING, PENDING | SUCCESS, SUCCESS | FAILED, FAILED => true
  | _, _ => false
  end.

Record t := mk
  { _id : Id;
    user : Id;
    type : Type_;
    amount : Q;
    status : Status;
    linkedAuction : option Id;
    linkedEscrow : option Id }.

Definition set_status (x : Status) (e : t) : t :=
  mk (_id e) (user e) (type e) (amount e) x (linkedAuction e)
     (linkedEscrow e).
End TokenTransaction.

(** ** The database *)

Record Store := mkStore
  { users : list User.t;
    auctions : list Auction.t;
    bids : list Bid.t;
    escrows : list Escrow.t;
    confirmations : list DeliveryConfirmation.t;
    disputes : list Dispute.t;
    ledger : list TokenTransaction.t }.

(** A Mongoose model: the identity of its documents, and its collection. *)
Class Document (A : Type) := { _id : A -> Id }.

Class Model (A : Type) :=
  { coll : Store -> list A;
    with_coll : list A -> Store -> Store }.

#[global] Instance UserDocument : Document User.t := { _id := User._id }.
#[global] Instance AuctionDocument : Document Auction.t :=
  { _id := Auction._id }.
#[global] Instance BidDocument : Document Bid.t := { _id := Bid._id }.
#[global] Instance EscrowDocument : Document Escrow.t := { _id := Escrow._id }.
#[global] Instance DeliveryConfirmationDocument
  : Document DeliveryConfirmation.t := { _id := DeliveryConfirmation._id }.
#[global] Instance DisputeDocument : Document Dispute.t :=
  { _id := Dispute._id }.
#[global] Instance TokenTransactionDocument : Document TokenTransaction.t :=
  { _id := TokenTransaction._id }.

#[global] Instance UserModel : Model User.t :=
  { coll := users;
    with_coll l s :=
      mkStore l (auctions s) (bids s) (escrows s) (confirmations s)
              (disputes s) (ledger s) }.

#[global] Instance AuctionModel : Model Auction.t :=
  { coll := auctions;
    with_coll l s :=
      mkStore (users s) l (bids s) (escrows s) (confirmations s)
              (disputes s) (ledger s) }.

#[global] Instance BidModel : Model Bid.t :=
  { coll := bids;
    with_coll l s :=
      mkStore (users s) (auctions s) l (escrows s) (confirmations s)
              (disputes s) (ledger s) }.

#[global] Instance EscrowModel : Model Escrow.t :=
  { coll := escrows;
    with_coll l s :=
      mkStore (users s) (auctions s) (bids s) l (confirmations s)
              (disputes s) (ledger s) }.

#[global] Instance DeliveryConfirmationModel : Model DeliveryConfirmation.t :=
  { coll := confirmations;
    with_coll l s :=
      mkStore (users s) (auctions s) (bids s) (escrows s) l
              (disputes s) (ledger s) }.

#[global] Instance DisputeModel : Model Dispute.t :=
  { coll := disputes;
    with_coll l s :=
      mkStore (users s) (auctions s) (bids s) (escrows s) (confirmations s)
              l (ledger s) }.

#[global] Instance TokenTransactionModel : Model TokenTransaction.t :=
  { coll := ledger;
    with_coll l s :=
      mkStore (users s) (auctions s) (bids s) (escrows s) (confirmations s)
              (disputes s) l }.

(** ** Queries and updates on one collection *)

Section Collections.
Context {A : Type} `{Document A}.

Definition hasId (i : Id) (d : A) : bool := Nat.eqb (_id d) i.

Definition byId (i : Id) (l : list A) : option A := find (hasId i) l.

(** Apply [f] to the first document that satisfies [p]. *)
Fixpoint updateFirst (p : A -> bool) (f : A -> A) (l : list A) : list A :=
  match l with
  | [] => []
  | d :: l' => if p d then f d :: l' else d :: updateFirst p f l'
  end.

Definition updateAll (p : A -> bool) (f : A -> A) (l : list A) : list A :=
  map (fun d => if p d then f d else d) l.

(** [doc.save()] for a stored document. *)
Definition replace (d : A) (l : list A) : list A :=
  updateFirst (hasId (_id d)) (fun _ => d) l.

Fixpoint removeFirst (p : A -> bool) (l : list A) : list A :=
  match l with
  | [] => []
  | d :: l' => if p d then l' else d :: removeFirst p l'
  end.

(** [find(p).sort({ key: -1 })] limited to one document: the first of the
    documents with the greatest key. *)
Fixpoint greatest (key : A -> Q) (p : A -> bool) (l : list A) : option A :=
  match l with
  | [] => None
  | d :: l' =>
      if p d then
        match greatest key p l' with
        | Some d' => if Qle_bool (key d') (key d) then Some d else Some d'
        | None => Some d
        end
      else greatest key p l'
  end.

(** [find(p).sort({ key: -1 })] on an integer key. *)
Fixpoint latest (key : A -> Z) (p : A -> bool) (l : list A) : option A :=
  match l with
  | [] => None
  | d :: l' =>
      if p d then
        match latest key p l' with
        | Some d' => if Z.leb (key d') (key d) then Some d else Some d'
        | None => Some d
        end
      else latest key p l'
  end.
End Collections.

(** ** The controller monad *)

Inductive Exn :=
| Fault                      (* the store or a service rejected the call *)
| TypeError                  (* a property of null or undefined was read *)
| CastError                  (* a NaN reached a Number path on save *)
| TransactionError           (* abort or commit without an open transaction *)
| Error (message : string).  (* throw new Error(message) *)

Record World := mkWorld
  { db : Store;
    view : option Store;
    fuse : option nat;
    nextId : Id;
    clock : Time }.

Definition M (A : Type) : Type := World -> (Exn + A) * World.

Definition ret {A} (a : A) : M A := fun w => (inr a, w).

Definition bind {A B} (m : M A) (k : A -> M B) : M B :=
  fun w =>
    match m w with
    | (inr a, w') => k a w'
    | (inl e, w') => (inl e, w')
    end.

Definition throw {A} (e : Exn) : M A := fun w => (inl e, w).

Declare Scope monad_scope.
Delimit Scope monad_scope with monad.
Notation "x <- m ;; k" := (bind m (fun x => k))
  (at level 61, m at next level, right associativity) : monad_scope.
Notation "m ;; k" := (bind m (fun _ => k))
  (at level 61, right associativity) : monad_scope.
Local Open Scope monad_scope.

(** [try { m } catch (e) { ... }]: the exception becomes a value; what [m]
    did to the world before it threw stays done. *)
Definition try_ {A} (m : M A) : M (Exn + A) :=
  fun w => let (r, w') := m w in (inr r, w').

(** [try { m } finally { fin }]. *)
Definition finally {A} (m : M A) (fin : M unit) : M A :=
  r <- try_ m ;;
  fin ;;
  match r with
  | inl e => throw e
  | inr a => ret a
  end.

(** One awaited call to the store or to a service. *)
Definition tick : M unit :=
  fun w =>
    match fuse w with
    | Some O => (inl Fault, mkWorld (db w) (view w) None (nextId w) (clock w))
    | Some (S n) =>
        (inr tt, mkWorld (db w) (view w) (Some n) (nextId w) (clock w))
    | None => (inr tt, w)
    end.

Definition fresh : M Id :=
  fun w =>
    (inr (nextId w), mkWorld (db w) (view w) (fuse w) (S (nextId w)) (clock w)).

Definition Date_now : M Time := fun w => (inr (clock w), w).

Inductive Via := Direct | InSession.

Definition current (v : Via) (w : World) : Store :=
  match v, view w with
  | InSession, Some s => s
  | _, _ => db w
  end.

Definition apply (v : Via) (f : Store -> Store) (w : World) : World :=
  match v, view w with
  | InSession, Some s => mkWorld (db w) (Some (f s)) (fuse w) (nextId w) (clock w)
  | _, _ =>
      mkWorld (f (db w)) (option_map f (view w)) (fuse w) (nextId w) (clock w)
  end.

Definition query {A} (v : Via) (q : Store -> A) : M A :=
  tick ;; fun w => (inr (q (current v w)), w).

Definition update (v : Via) (f : Store -> Store) : M unit :=
  tick ;; fun w => (inr tt, apply v f w).

(** Transactions. *)
Definition startSession : M unit := tick.

Definition startTransaction : M unit :=
  fun w => (inr tt, mkWorld (db w) (Some (db w)) (fuse w) (nextId w) (clock w)).

Definition commitTransaction : M unit :=
  tick ;;
  fun w =>
    match view w with
    | Some s => (inr tt, mkWorld s None (fuse w) (nextId w) (clock w))
    | None => (inl TransactionError, w)
    end.

Definition abortTransaction : M unit :=
  fun w =>
    match view w with
    | Some _ => (inr tt, mkWorld (db w) None (fuse w) (nextId w) (clock w))
    | None => (inl TransactionError, w)
    end.

Definition endSession : M unit :=
  fun w => (inr tt, mkWorld (db w) None (fuse w) (nextId w) (clock w)).

(** A notification: nothing of the database changes, the service may
    reject. *)
Definition notify : M unit := tick.

(** ** Model statics *)

Section Statics.
Context {A : Type} `{Document A} `{Model A}.

Definition findById (v : Via) (i : Id) : M (option A) :=
  query v (fun s => byId i (coll s)).

Definition findOne (v : Via) (p : A -> bool) : M (option A) :=
  query v (fun s => find p (coll s)).

Definition findOneSortDesc (v : Via) (p : A -> bool) (key : A -> Q)
  : M (option A) :=
  query v (fun s => greatest key p (coll s)).

Definition findOneLatest (v : Via) (p : A -> bool) (key : A -> Z)
  : M (option A) :=
  query v (fun s => latest key p (coll s)).

Definition create (v : Via) (doc : Id -> A) : M A :=
  i <- fresh ;;
  update v (fun s => with_coll (coll s ++ [doc i]) s) ;;
  ret (doc i).

Definition save (v : Via) (d : A) : M unit :=
  update v (fun s => with_coll (replace d (coll s)) s).

Definition findOneAndUpdate (v : Via) (p : A -> bool) (f : A -> A)
  : M (option A) :=
  tick ;;
  fun w =>
    match find p (coll (current v w)) with
    | Some d =>
        (inr (Some (f d)),
         apply v (fun s => with_coll (updateFirst p f (coll s)) s) w)
    | None => (inr None, w)
    end.

Definition updateOne (v : Via) (p : A -> bool) (f : A -> A) : M unit :=
  update v (fun s => with_coll (updateFirst p f (coll s)) s).

Definition updateMany (v : Via) (p : A -> bool) (f : A -> A) : M unit :=
  update v (fun s => with_coll (updateAll p f (coll s)) s).

Definition findByIdAndUpdate (v : Via) (i : Id) (f : A -> A) : M unit :=
  updateOne v (hasId i) f.

Definition findByIdAndDelete (v : Via) (i : Id) : M unit :=
  update v (fun s => with_coll (removeFirst (hasId i) (coll s)) s).
End Statics.

Definition catch {A} (m : M A) (handler : Exn -> M A) : M A :=
  r <- try_ m ;;
  match r with
  | inl e => handler e
  | inr a => ret a
  end.

(** What a route handler sends: the HTTP status and the message. *)
Inductive Response := Json (status : nat) (message : string).

Definition statusOf (r : Response) : nat :=
  match r with Json c _ => c end.

(** ** JavaScript values *)

Definition Qltb (x y : Q) : bool := negb (Qle_bool y x).

(** [x || 0] on a number that may be undefined. *)
Definition orZero (x : option Q) : Q :=
  match x with
  | Some q => if Qeq_bool q 0 then 0%Q else q
  | None => 0%Q
  end.

(** Truthiness of a number that may be undefined. *)
Definition truthy (x : option Q) : bool :=
  match x with
  | Some q => negb (Qeq_bool q 0)
  | None => false
  end.

Definition sameId (x : option Id) (i : Id) : bool :=
  match x with
  | Some j => Nat.eqb j i
  | None => false
  end.

(** ** controllers/bidController.js *)

Definition ANTI_SNIPING_EXTENSION : Z := 30.
Definition MIN_BID_INCREASE : Q := 5 # 100.
Definition TOO_FAST_BIDS : Z := 5000.

Definition escrowBidTokens (bid : Bid.t) : M bool :=
  user <- findById Direct (Bid.bidder bid) ;;
  match user with
  | None => throw TypeError
  | Some user =>
      let user :=
        User.set_escrowedBalance
          (Some (orZero (User.escrowedBalance user) + Bid.amount bid)%Q) user in
      let user :=
        User.set_balance (User.balance user - Bid.amount bid)%Q user in
      save Direct user ;;
      ret true
  end.

Record Finalized := mkFinalized
  { newPrice : Q;
    extendedEndTime : option Time;
    userBalance : Q }.

Definition finalizeBidPlacement (bid : Bid.t) : M Finalized :=
  startSession ;;
  startTransaction ;;
  finally
    (catch
       (auction <- findById InSession (Bid.auction bid) ;;
        match auction with
        | None => throw (Error "Auction not found during bid finalization")
        | Some auction =>
            now <- Date_now ;;
            (* timeRemaining = (endTime - now) / 1000 < ANTI_SNIPING_EXTENSION *)
            let extend :=
              (Auction.endTime auction - now <? ANTI_SNIPING_EXTENSION * 1000)%Z in
            let auction :=
              if extend
              then Auction.set_endTime (now + ANTI_SNIPING_EXTENSION * 1000)%Z
                                       auction
              else auction in
            let auction := Auction.set_currentPrice (Bid.amount bid) auction in
            let auction :=
              Auction.set_highestBidder (Some (Bid.bidder bid)) auction in
            let auction :=
              Auction.set_bidCount (S (Auction.bidCount auction)) auction in
            save InSession auction ;;
            findByIdAndUpdate InSession (Bid._id bid) (Bid.set_status Bid.active) ;;
            commitTransaction ;;
            userBalance <- findById Direct (Bid.bidder bid) ;;
            match userBalance with
            | None => throw TypeError
            | Some u =>
                ret (mkFinalized
                       (Auction.currentPrice auction)
                       (if extend then Some (Auction.endTime auction) else None)
                       (User.balance u))
            end
        end)
       (fun error => abortTransaction ;; throw error))
    endSession.

(** The part of [placeBid] up to the creation of the pending bid: either an
    early response, or the bid that the [catch] block will know as [bid]. *)
Definition placeBid_open (userId auctionId : Id) (amount : Q)
  : M (Response + Bid.t) :=
  auction <- findById Direct auctionId ;;
  user <- findById (A := User.t) Direct userId ;;
  now <- Date_now ;;
  match auction with
  | None => ret (inl (Json 400 "Bidding closed or auction not found"))
  | Some auction =>
      if negb (Auction.isActive auction) || (now >? Auction.endTime auction)%Z
      then ret (inl (Json 400 "Bidding closed or auction not found"))
      else
        match user with
        | None => ret (inl (Json 404 "User not found"))
        | Some user =>
            let minValidBid :=
              (Auction.currentPrice auction * (1 + MIN_BID_INCREASE))%Q in
            if Qltb amount minValidBid
            then ret (inl (Json 400 "Bid must be at least minValidBid"))
            else if Qltb (User.balance user) amount
            then ret (inl (Json 400 "Insufficient balance"))
            else
              lastUserBid <-
                findOneLatest Direct
                  (fun b => Nat.eqb (Bid.bidder b) userId
                            && Nat.eqb (Bid.auction b) auctionId)
                  Bid.createdAt ;;
              let tooFast :=
                match lastUserBid with
                | Some b => (now - Bid.createdAt b <? TOO_FAST_BIDS)%Z
                | None => false
                end in
              if tooFast
              then ret (inl (Json 429 "Bid too fast. Wait 5 seconds."))
              else
                (* FRAUD_RULES.SUSPICIOUS_JUMP_MULTIPLIER is undefined: the
                   comparison with NaN is false *)
                bid <- create Direct
                         (fun i => Bid.mk i auctionId userId amount Bid.pending
                                          false false false None now) ;;
                ret (inr bid)
        end
  end.

Definition placeBid (userId auctionId : Id) (amount : Q) : M Response :=
  opened <- try_ (placeBid_open userId auctionId amount) ;;
  match opened with
  | inl _ => ret (Json 500 "Bid failed")
  | inr (inl response) => ret response
  | inr (inr bid) =>
      done <- try_ (escrowBidTokens bid ;; finalizeBidPlacement bid) ;;
      match done with
      | inr _ => ret (Json 201 "success")
      | inl _ =>
          findByIdAndDelete (A := Bid.t) Direct (Bid._id bid) ;;
          ret (Json 500 "Bid failed")
      end
  end.

Definition ofAuction (auctionId : Id) (b : Bid.t) : bool :=
  Nat.eqb (Bid.auction b) auctionId.

Definition setWinningBid (auctionId : Id) : M (option Bid.t) :=
  winningBid <- findOneSortDesc Direct (ofAuction auctionId) Bid.amount ;;
  match winningBid with
  | Some winningBid =>
      updateMany Direct (ofAuction auctionId) (Bid.set_isWinningBid false) ;;
      let winningBid := Bid.set_isWinningBid true winningBid in
      save Direct winningBid ;;
      ret (Some winningBid)
  | None => ret None
  end.

Definition retractionPenaltyOf (amount : Q) : Q :=
  Qmax (amount * (1 # 10)) (1 # 2).

Definition retractBid (bidId userId : Id) : M Response :=
  catch
    (bid <- findById Direct bidId ;;
     match bid with
     | None => ret (Json 404 "Bid not found")
     | Some bid =>
         auction <- findById Direct (Bid.auction bid) ;;
         user <- findById Direct (Bid.bidder bid) ;;
         if negb (Nat.eqb (Bid.bidder bid) userId)
         then ret (Json 403 "Not your bid")
         else
           match auction with
           | None => throw TypeError
           | Some auction =>
               now <- Date_now ;;
               if (now >? Auction.endTime auction)%Z
               then ret (Json 400 "Cannot retract after auction ends")
               else
                 let penalty := retractionPenaltyOf (Bid.amount bid) in
                 let bid := Bid.set_isRetracted true bid in
                 let bid := Bid.set_retractionPenalty (Some penalty) bid in
                 save Direct bid ;;
                 match user with
                 | None => throw TypeError
                 | Some user =>
                     let user :=
                       User.set_balance
                         (User.balance user + (Bid.amount bid - penalty))%Q
                         user in
                     save Direct user ;;
                     (if sameId (Auction.highestBidder auction) (Bid.bidder bid)
                      then
                        newHighestBid <-
                          findOneSortDesc Direct
                            (fun b => ofAuction (Bid.auction bid) b
                                      && negb (Bid.isRetracted b))
                            Bid.amount ;;
                        let auction :=
                          Auction.set_currentPrice
                            (match newHighestBid with
                             | Some b =>
                                 if Qeq_bool (Bid.amount b) 0
                                 then Auction.startingPrice auction
                                 else Bid.amount b
                             | None => Auction.startingPrice auction
                             end) auction in
                        let auction :=
                          Auction.set_highestBidder
                            (option_map Bid.bidder newHighestBid) auction in
                        save Direct auction
                      else ret tt) ;;
                     ret (Json 200 "refunded")
                 end
           end
     end)
    (fun _ => ret (Json 500 "Retraction failed")).

(** ** controllers/escrowController.js *)

(** A query with [.populate('vendor')] and [.populate('highestBidder')]: a
    populated path is null when the user it refers to is not stored. *)
Record Populated := mkPopulated
  { doc : Auction.t;
    vendor_ : option User.t;
    highestBidder_ : option User.t }.

Definition populate (s : Store) (a : Auction.t) : Populated :=
  mkPopulated a
    (byId (Auction.vendor a) (users s))
    (match Auction.highestBidder a with
     | Some b => byId b (users s)
     | None => None
     end).

Definition findByIdPopulated (v : Via) (auctionId : Id) : M (option Populated) :=
  query v (fun s => option_map (populate s) (byId auctionId (auctions s))).

Definition heldFor (auctionId : Id) (e : Escrow.t) : bool :=
  Nat.eqb (Escrow.auction e) auctionId
  && Escrow.Status_eqb (Escrow.status e) Escrow.HELD.

Definition credit (x : Q) (u : User.t) : User.t :=
  User.set_balance (User.balance u + x)%Q u.

Definition createEscrow (auctionId : Id) : M Escrow.t :=
  auction <- findByIdPopulated Direct auctionId ;;
  match auction with
  | None => throw (Error "Invalid auction state for escrow")
  | Some auction =>
      match highestBidder_ auction, Auction.winningBidAmount (doc auction) with
      | Some buyer, Some winningBidAmount =>
          if negb (truthy (Some winningBidAmount))
          then throw (Error "Invalid auction state for escrow")
          else
            match vendor_ auction with
            | None => throw TypeError
            | Some vendor =>
                escrow <-
                  create Direct
                    (fun i => Escrow.mk i auctionId (User._id buyer)
                                        (User._id vendor) winningBidAmount
                                        Escrow.HELD None None) ;;
                create Direct
                  (fun i => TokenTransaction.mk i (User._id buyer)
                              TokenTransaction.ESCROW_HOLD winningBidAmount
                              TokenTransaction.SUCCESS (Some auctionId)
                              (Some (Escrow._id escrow))) ;;
                ret escrow
            end
      | _, _ => throw (Error "Invalid auction state for escrow")
      end
  end.

Definition release (now : Time) (reason : string) (st : Escrow.Status)
                   (e : Escrow.t) : Escrow.t :=
  Escrow.set_releasedAt (Some now)
    (Escrow.set_releaseReason (Some reason) (Escrow.set_status st e)).

Definition releaseToVendor (auctionId : Id) : M Escrow.t :=
  escrow <- findOne Direct (heldFor auctionId) ;;
  match escrow with
  | None => throw (Error "No active escrow found")
  | Some escrow =>
      auction <- findById (A := Auction.t) Direct auctionId ;;
      let platformFee := (Escrow.tokenAmount escrow * (1 # 10))%Q in
      let vendorAmount := (Escrow.tokenAmount escrow - platformFee)%Q in
      now <- Date_now ;;
      let escrow := release now "DELIVERY_CONFIRMED" Escrow.RELEASED escrow in
      save Direct escrow ;;
      findByIdAndUpdate Direct (Escrow.vendor escrow) (credit vendorAmount) ;;
      create Direct
        (fun i => TokenTransaction.mk i (Escrow.vendor escrow)
                    TokenTransaction.PAYOUT_VENDOR vendorAmount
                    TokenTransaction.SUCCESS (Some auctionId)
                    (Some (Escrow._id escrow))) ;;
      create Direct
        (fun i => TokenTransaction.mk i (Escrow.vendor escrow)
                    TokenTransaction.PLATFORM_FEE platformFee
                    TokenTransaction.SUCCESS (Some auctionId) None) ;;
      match auction with
      | None => throw TypeError           (* auction.title *)
      | Some _ => notify ;; notify
      end ;;
      ret escrow
  end.

Definition refundToBuyer (auctionId : Id) (reason : string) : M Escrow.t :=
  escrow <- findOne Direct (heldFor auctionId) ;;
  match escrow with
  | None => throw (Error "No active escrow found")
  | Some escrow =>
      auction <- findById (A := Auction.t) Direct auctionId ;;
      now <- Date_now ;;
      let escrow := release now reason Escrow.REFUNDED escrow in
      save Direct escrow ;;
      findByIdAndUpdate Direct (Escrow.buyer escrow)
                        (credit (Escrow.tokenAmount escrow)) ;;
      create Direct
        (fun i => TokenTransaction.mk i (Escrow.buyer escrow)
                    TokenTransaction.ESCROW_REFUND (Escrow.tokenAmount escrow)
                    TokenTransaction.SUCCESS (Some auctionId)
                    (Some (Escrow._id escrow))) ;;
      match auction with
      | None => throw TypeError           (* auction.title *)
      | Some _ => notify ;; notify
      end ;;
      ret escrow
  end.

(** The notifications of [releaseEscrow] run in [process.nextTick] inside
    their own [try]: nothing of them reaches the caller. *)
Definition releaseEscrow (auctionId : Id) : M unit :=
  escrow <- findOne InSession (heldFor auctionId) ;;
  match escrow with
  | None => throw (Error "No active escrow found for this auction")
  | Some escrow =>
      auction <- findById (A := Auction.t) InSession auctionId ;;
      let platformFee := (Escrow.tokenAmount escrow * (1 # 10))%Q in
      let vendorAmount := (Escrow.tokenAmount escrow - platformFee)%Q in
      now <- Date_now ;;
      let escrow := release now "DELIVERY_CONFIRMED" Escrow.RELEASED escrow in
      save InSession escrow ;;
      findByIdAndUpdate InSession (Escrow.vendor escrow) (credit vendorAmount) ;;
      create InSession
        (fun i => TokenTransaction.mk i (Escrow.vendor escrow)
                    TokenTransaction.PAYOUT_VENDOR vendorAmount
                    TokenTransaction.SUCCESS (Some auctionId)
                    (Some (Escrow._id escrow))) ;;
      create InSession
        (fun i => TokenTransaction.mk i (Escrow.vendor escrow)
                    TokenTransaction.PLATFORM_FEE platformFee
                    TokenTransaction.SUCCESS (Some auctionId)
                    (Some (Escrow._id escrow))) ;;
      ret tt
  end.

(** ** controllers/deliveryConfirmationController.js *)

Definition createConfirmation (auctionId : Id)
  : M (option DeliveryConfirmation.t) :=
  auction <- findByIdPopulated Direct auctionId ;;
  match auction with
  | None => ret None
  | Some auction =>
      match highestBidder_ auction with
      | None => ret None
      | Some buyer =>
          match vendor_ auction with
          | None => throw TypeError
          | Some vendor =>
              confirmation <-
                create Direct
                  (fun i => DeliveryConfirmation.mk i auctionId
                              (User._id vendor) (User._id buyer)
                              (if Auction.isDigital (doc auction)
                               then DeliveryConfirmation.PENDING_DELIVERY
                               else DeliveryConfirmation.PENDING_SHIPMENT)
                              None None) ;;
              notify ;;
              notify ;;
              ret (Some confirmation)
          end
      end
  end.

Definition awaitingBuyer (auctionId userId : Id) (c : DeliveryConfirmation.t)
  : bool :=
  Nat.eqb (DeliveryConfirmation.auction c) auctionId
  && Nat.eqb (DeliveryConfirmation.buyer c) userId
  && match DeliveryConfirmation.status c with
     | DeliveryConfirmation.SHIPPED
     | DeliveryConfirmation.PENDING_DELIVERY => true
     | _ => false
     end.

Definition pendingFee (auctionId : Id) (e : TokenTransaction.t) : bool :=
  sameId (TokenTransaction.linkedAuction e) auctionId
  && TokenTransaction.Type_eqb (TokenTransaction.type e)
                               TokenTransaction.PLATFORM_FEE
  && TokenTransaction.Status_eqb (TokenTransaction.status e)
                                 TokenTransaction.PENDING.

Definition confirmDelivery (auctionId userId : Id) : M Response :=
  startSession ;;
  startTransaction ;;
  finally
    (catch
       (now <- Date_now ;;
        confirmation <-
          findOneAndUpdate InSession (awaitingBuyer auctionId userId)
            (fun c => DeliveryConfirmation.set_deliveredAt (Some now)
                        (DeliveryConfirmation.set_status
                           DeliveryConfirmation.DELIVERED c)) ;;
        match confirmation with
        | None =>
            abortTransaction ;;
            ret (Json 404 "Nothing to confirm")
        | Some confirmation =>
            releaseEscrow (DeliveryConfirmation.auction confirmation) ;;
            updateOne InSession
              (pendingFee (DeliveryConfirmation.auction confirmation))
              (TokenTransaction.set_status TokenTransaction.SUCCESS) ;;
            commitTransaction ;;
            ret (Json 200 "Delivery confirmed. Vendor payment released.")
        end)
       (fun _ => abortTransaction ;; ret (Json 500 "Confirmation failed")))
    endSession.

Definition disputable (auctionId userId : Id) (c : DeliveryConfirmation.t)
  : bool :=
  Nat.eqb (DeliveryConfirmation.auction c) auctionId
  && Nat.eqb (DeliveryConfirmation.buyer c) userId
  && match DeliveryConfirmation.status c with
     | DeliveryConfirmation.DELIVERED => false
     | _ => true
     end.

Definition openDispute (auctionId userId : Id) (reason : string) : M Response :=
  catch
    (confirmation <-
       findOneAndUpdate Direct (disputable auctionId userId)
         (fun c => DeliveryConfirmation.set_disputeReason (Some reason)
                     (DeliveryConfirmation.set_status
                        DeliveryConfirmation.DISPUTED c)) ;;
     match confirmation with
     | None => ret (Json 400 "Cannot dispute this delivery")
     | Some _ =>
         notify ;;
         notify ;;
         ret (Json 200 "confirmation")
     end)
    (fun _ => ret (Json 500 "Dispute failed")).

(** ** controllers/tokenTransactionController.js *)




(** ** controllers/auctionController.js *)


Definition confirmReceipt (auctionId userId : Id) : M Response :=
  catch
    (auction <- findById Direct auctionId ;;
     match auction with
     | None => throw TypeError                       (* auction.highestBidder *)
     | Some auction =>
         if negb (sameId (Auction.highestBidder auction) userId)
         then ret (Json 403 "Not the auction winner")
         else
           let auction := Auction.set_winnerConfirmed true auction in
           let auction := Auction.set_vendorPaid true auction in
           vendor <- findById Direct (Auction.vendor auction) ;;
           match vendor, Auction.winningBidAmount auction with
           | None, _ => throw TypeError              (* vendor.balance *)
           | Some _, None => throw CastError         (* balance += NaN *)
           | Some vendor, Some winningBidAmount =>
               let vendor := credit (winningBidAmount * (9 # 10))%Q vendor in
               save Direct vendor ;;
               save Direct auction ;;
               ret (Json 200 "Item receipt confirmed. Vendor has been paid.")
           end
     end)
    (fun _ => ret (Json 500 "Server error")).

(** ** controllers/disputeController.js *)


Definition forAuction (auctionId : Id) (e : Escrow.t) : bool :=
  Nat.eqb (Escrow.auction e) auctionId.




(** [partialResolution] runs inside the transaction of its caller. *)
Definition partialResolution (auctionId : Id) (refundRatio : Q) : M unit :=
  escrow <- findOne InSession (forAuction auctionId) ;;
  match escrow with
  | None => throw TypeError                          (* escrow.tokenAmount *)
  | Some escrow =>
      let refundAmount := (Escrow.tokenAmount escrow * refundRatio)%Q in
      let vendorAmount := (Escrow.tokenAmount escrow * (1 - refundRatio))%Q in
      findByIdAndUpdate InSession (Escrow.buyer escrow) (credit refundAmount) ;;
      findByIdAndUpdate InSession (Escrow.vendor escrow) (credit vendorAmount) ;;
      create InSession
        (fun i => TokenTransaction.mk i (Escrow.buyer escrow)
                    TokenTransaction.DISPUTE_PARTIAL_REFUND refundAmount
                    TokenTransaction.SUCCESS (Some auctionId) None) ;;
      create InSession
        (fun i => TokenTransaction.mk i (Escrow.vendor escrow)
                    TokenTransaction.DISPUTE_PARTIAL_PAYOUT vendorAmount
                    TokenTransaction.SUCCESS (Some auctionId) None) ;;
      ret tt
  end.

(** ** Running a request *)

(** A request arrives with no transaction open. *)
Definition boot (s : Store) (next : Id) (now : Time) (failAt : option nat)
  : World :=
  mkWorld s None failAt next now.

(** [n] requests of the same kind, one after the other. *)
Fixpoint repeatedly {A} (n : nat) (m : M A) : M (list A) :=
  match n with
  | O => ret []
  | S n' => a <- m ;; l <- repeatedly n' m ;; ret (a :: l)
  end.

Arguments byId {A H} i l : simpl never.
Arguments replace {A H} d l : simpl never.

Unset Implicit Arguments.

(** * Scenarios, and the claims as the specification words them *)

Definition receiptConfirmed : Response :=
  Json 200 "Item receipt confirmed. Vendor has been paid.".

Module Scenario.
Definition vendor : User.t := User.mk 1 0 None.
Definition alice : User.t := User.mk 2 500 None.
Definition bob : User.t := User.mk 3 500 None.

(** An auction open until t = 1000000, starting at 100 tokens. *)
Definition lot : Auction.t :=
  Auction.mk 10 1 100 100 None 0 1000000 true false None None
             false false.

Definition opened : Store :=
  mkStore [vendor; alice; bob] [lot] [] [] [] [] [].

(** The same auction after its close: bob won with 1000 tokens, the escrow
    is held, the delivery is awaited and the fee entry is pending. *)
Definition lotClosed : Auction.t :=
  Auction.mk 10 1 100 1000 (Some 3%nat) 1 1000000 false true
             (Some 1000) (Some 1000000%Z) false false.

Definition winning : Bid.t :=
  Bid.mk 20 10 3 1000 Bid.active true false false None 5000.

Definition hold : Escrow.t :=
  Escrow.mk 30 10 3 1 1000 Escrow.HELD None None.

Definition awaited : DeliveryConfirmation.t :=
  DeliveryConfirmation.mk 40 10 1 3
    DeliveryConfirmation.PENDING_DELIVERY None None.

Definition holdEntry : TokenTransaction.t :=
  TokenTransaction.mk 31 3 TokenTransaction.ESCROW_HOLD 1000
    TokenTransaction.SUCCESS (Some 10%nat) (Some 30%nat).

Definition feeEntry : TokenTransaction.t :=
  TokenTransaction.mk 41 1 TokenTransaction.PLATFORM_FEE 100
    TokenTransaction.PENDING (Some 10%nat) None.

Definition closed : Store :=
  mkStore [vendor; alice; User.mk 3 0 (Some 1000)] [lotClosed] [winning]
          [hold] [awaited] [] [holdEntry; feeEntry].
End Scenario.

(** The retraction as the specification words it: the refund goes to the
    available balance and the hold of [amount] leaves the escrowed balance. *)
Definition retraction_dissolves_hold
           (s : Store) (next : Id) (now : Time) (bidId userId : Id) : Prop :=
  forall msg w',
    retractBid bidId userId (boot s next now None) = (inr (Json 200 msg), w') ->
    exists bid user user',
      byId bidId (bids s) = Some bid
      /\ byId userId (users s) = Some user
      /\ byId userId (users (db w')) = Some user'
      /\ (User.balance user'
          == User.balance user
             + (Bid.amount bid - retractionPenaltyOf (Bid.amount bid)))%Q
      /\ (orZero (User.escrowedBalance user')
          == orZero (User.escrowedBalance user) - Bid.amount bid)%Q.

Module Bidding.
(** alice holds the highest bid, 110 tokens, on the open auction. *)
Definition alice : User.t := User.mk 2 390 (Some 110).
Definition lot : Auction.t :=
  Auction.mk 10 1 100 110 (Some 2%nat) 1 1000000 true false None None
             false false.
Definition bid : Bid.t :=
  Bid.mk 20 10 2 110 Bid.active false false false None 1000.
Definition store : Store :=
  mkStore [Scenario.vendor; alice; Scenario.bob] [lot] [bid] [] [] [] [].
End Bidding.




Module Disputed.
(** The closed auction of [Scenario], its escrow frozen by a dispute. *)
Definition hold : Escrow.t :=
  Escrow.mk 30 10 3 1 1000 Escrow.DISPUTED None None.
Definition store : Store :=
  mkStore [Scenario.vendor; Scenario.alice; User.mk 3 0 (Some 1000)]
          [Scenario.lotClosed] [Scenario.winning] [hold] [Scenario.awaited]
          [Dispute.mk 45 10 30 3 1 "not as described" Dispute.OPEN]
          [Scenario.holdEntry; Scenario.feeEntry].
End Disputed.




Definition feeOf (auctionId : Id) (e : TokenTransaction.t) : bool :=
  sameId (TokenTransaction.linkedAuction e) auctionId
  && TokenTransaction.Type_eqb (TokenTransaction.type e)
                               TokenTransaction.PLATFORM_FEE.

Definition payoutOf (auctionId : Id) (e : TokenTransaction.t) : bool :=
  sameId (TokenTransaction.linkedAuction e) auctionId
  && TokenTransaction.Type_eqb (TokenTransaction.type e)
                               TokenTransaction.PAYOUT_VENDOR.

Definition succeeded (e : TokenTransaction.t) : bool :=
  TokenTransaction.Status_eqb (TokenTransaction.status e)
                              TokenTransaction.SUCCESS.

(** The confirmed delivery as the specification words it: the auction is left
    with one payout entry and one fee entry, no duplicate. *)
Definition delivery_leaves_one_entry_pair
           (s : Store) (next : Id) (now : Time) (auctionId userId : Id) : Prop :=
  forall msg w',
    confirmDelivery auctionId userId (boot s next now None)
    = (inr (Json 200 msg), w') ->
    List.length (filter (payoutOf auctionId) (ledger (db w'))) = 1%nat
    /\ List.length (filter (feeOf auctionId) (ledger (db w'))) = 1%nat.

(** C5, counterexample.  bob confirms the delivery of the closed auction,
    whose ledger holds the PENDING fee entry of 100 written at the close: the
    ledger ends with two PLATFORM_FEE entries of 100 for the auction. *)
Definition delivered : (Exn + Response) * World :=
  Eval vm_compute in
    confirmDelivery 10 3 (boot Scenario.closed 50 2000000 None).

Definition successfulFee (auctionId : Id) (e : TokenTransaction.t) : bool :=
  feeOf auctionId e && succeeded e.







Module Pending.
(** Besides alice's active bid of 110, a bid of 150 by bob that is still
    pending. *)
Definition bid : Bid.t :=
  Bid.mk 21 10 3 150 Bid.pending false false false None 900000.
Definition store : Store :=
  mkStore [Scenario.vendor; Bidding.alice; Scenario.bob] [Bidding.lot]
          [Bidding.bid; bid] [] [] [] [].
End Pending.

Module Retracted.
(** alice's bid of 200 was retracted; bob's bid of 110 leads the auction. *)
Definition withdrawn : Bid.t :=
  Bid.mk 20 10 2 200 Bid.active false false true (Some 20) 1000.
Definition standing : Bid.t :=
  Bid.mk 21 10 3 110 Bid.active false false false None 9000.
Definition lot : Auction.t :=
  Auction.mk 10 1 100 110 (Some 3%nat) 2 1000000 true false None None
             false false.
Definition store : Store :=
  mkStore [Scenario.vendor; User.mk 2 480 (Some 200); User.mk 3 390 (Some 110)]
          [lot] [withdrawn; standing] [] [] [] [].
End Retracted.

Inductive Operation :=
| PlaceBid (userId auctionId : Id) (amount : Q) (now : Time)
| RetractBid (bidId userId : Id) (now : Time).

Definition request (op : Operation) : M Response :=
  match op with
  | PlaceBid userId auctionId amount _ => placeBid userId auctionId amount
  | RetractBid bidId userId _ => retractBid bidId userId
  end.

Definition instant (op : Operation) : Time :=
  match op with
  | PlaceBid _ _ _ now => now
  | RetractBid _ _ now => now
  end.

(** The amount that a request got accepted on the auction, if any. *)
Definition acceptedBy (auctionId : Id) (op : Operation) (r : Exn + Response)
  : option Q :=
  match op, r with
  | PlaceBid _ a amount _, inr response =>
      if Nat.eqb a auctionId && Nat.eqb (statusOf response) 201
      then Some amount else None
  | _, _ => None
  end.

(** The amounts accepted on the auction, in order, when the requests are
    served one after the other. *)
Fixpoint accepted (auctionId : Id) (ops : list Operation)
                  (s : Store) (next : Id) : list Q :=
  match ops with
  | [] => []
  | op :: ops' =>
      let (r, w') := request op (boot s next (instant op) None) in
      let rest := accepted auctionId ops' (db w') (nextId w') in
      match acceptedBy auctionId op r with
      | Some amount => amount :: rest
      | None => rest
      end
  end.




Module Sniped.
(** alice bids 200 and retracts; bob is then accepted with 110. *)
Definition ops : list Operation :=
  [PlaceBid 2 10 200 1000; RetractBid 50 2 8000; PlaceBid 3 10 110 9000].
End Sniped.



Module Outbid.
(** alice bids 106; bob is refused with 110 and accepted with 112. *)
Definition ops : list Operation :=
  [PlaceBid 2 10 106 1000; PlaceBid 3 10 110 7000; PlaceBid 3 10 112 8000].
End Outbid.

(** The awaited calls of an accepted [placeBid], in order: 0 and 1 read the
    auction and the bidder, 2 reads the bidder's last bid, 3 creates the
    pending bid, 4 and 5 are the read and the save of [escrowBidTokens], and
    6 to 11 belong to [finalizeBidPlacement]: the session, the read of the
    auction, its save, the update of the bid, the commit and the read of the
    balance. *)
Definition afterFailedBid (k : nat) : (Exn + Response) * World :=
  placeBid 3 10 120 (boot Bidding.store 50 2000 (Some k)).

Module Ended.
(** The auction has ended with bob leading at 112 over alice's 106. *)
Definition lot : Auction.t :=
  Auction.mk 10 1 100 112 (Some 3%nat) 2 1000000 true false None None
             false false.
Definition store : Store :=
  mkStore [Scenario.vendor; User.mk 2 394 (Some 106); User.mk 3 388 (Some 112)]
          [lot]
          [Bid.mk 20 10 2 106 Bid.active false false false None 1000;
           Bid.mk 21 10 3 112 Bid.active false false false None 7000]
          [] [] [] [].
End Ended.

Module Stale.
(** The same, the stored auction already carrying a [winningBidAmount]. *)
Definition lot : Auction.t :=
  Auction.set_winningBidAmount (Some 112) Ended.lot.
Definition store : Store :=
  mkStore (users Ended.store) [lot] (bids Ended.store) [] [] [] [].
End Stale.



(** * Further controllers *)

(** The request was answered with this HTTP status. *)
Definition answered (code : nat) (r : Exn + Response) : bool :=
  match r with
  | inr response => Nat.eqb (statusOf response) code
  | inl _ => false
  end.

(** ** controllers/escrowController.js, continued *)

(** [reason] is undefined when the request body has none; [refundToBuyer]
    then takes its default. *)
Definition adminEscrowAction (escrowId : Id) (action : string)
           (reason : option string) : M Response :=
  catch
    (escrow <- findById (A := Escrow.t) Direct escrowId ;;
     match escrow with
     | None => ret (Json 404 "Escrow not found")
     | Some escrow =>
         if String.eqb action "RELEASE"
         then releaseToVendor (Escrow.auction escrow) ;; ret (Json 200 "result")
         else if String.eqb action "REFUND"
         then refundToBuyer (Escrow.auction escrow)
                (match reason with
                 | Some reason => reason
                 | None => "DISPUTE_RESOLVED"
                 end) ;;
              ret (Json 200 "result")
         else ret (Json 400 "Invalid action")
     end)
    (fun _ => ret (Json 500 "Admin action failed")).

(** ** controllers/deliveryConfirmationController.js, continued *)

Definition toShip (auctionId userId : Id) (c : DeliveryConfirmation.t) : bool :=
  Nat.eqb (DeliveryConfirmation.auction c) auctionId
  && Nat.eqb (DeliveryConfirmation.vendor c) userId
  && match DeliveryConfirmation.status c with
     | DeliveryConfirmation.PENDING_SHIPMENT => true
     | _ => false
     end.

(** [shippedAt], [trackingNumber] and [proofUrl] are not among the fields
    that the embedding keeps of a delivery confirmation. *)
Definition markShipped (auctionId userId : Id) : M Response :=
  catch
    (confirmation <-
       findOneAndUpdate Direct (toShip auctionId userId)
         (DeliveryConfirmation.set_status DeliveryConfirmation.SHIPPED) ;;
     match confirmation with
     | None => ret (Json 404 "No pending shipment found")
     | Some _ =>
         notify ;;
         ret (Json 200 "confirmation")
     end)
    (fun _ => ret (Json 500 "Failed to update shipment")).

Module DeliveryConfirmationController.
Section Resolution.
(** [refundBuyer] is called by [resolveDispute] and is neither defined nor
    imported in the controller. *)
Variable refundBuyer : Id -> Id -> M unit.

(** [resolutionNotes] is not among the fields kept of a delivery
    confirmation. *)
Definition resolveDispute (confirmationId : Id) (resolution : string)
  : M Response :=
  startSession ;;
  startTransaction ;;
  finally
    (catch
       (confirmation <-
          findById (A := DeliveryConfirmation.t) InSession confirmationId ;;
        match confirmation with
        | None =>
            abortTransaction ;;
            ret (Json 404 "Record not found")
        | Some confirmation =>
            confirmation <-
              (if String.eqb resolution "RELEASE_TO_VENDOR"
               then
                 let confirmation :=
                   DeliveryConfirmation.set_status
                     DeliveryConfirmation.DELIVERED confirmation in
                 releaseEscrow (DeliveryConfirmation.auction confirmation) ;;
                 ret confirmation
               else if String.eqb resolution "REFUND_BUYER"
               then
                 let confirmation :=
                   DeliveryConfirmation.set_status
                     DeliveryConfirmation.CANCELLED confirmation in
                 refundBuyer (DeliveryConfirmation.auction confirmation)
                             (DeliveryConfirmation.buyer confirmation) ;;
                 ret confirmation
               else ret confirmation) ;;
            save InSession confirmation ;;
            commitTransaction ;;
            ret (Json 200 "success")
        end)
       (fun _ => abortTransaction ;; ret (Json 500 "Resolution failed")))
    endSession.
End Resolution.
End DeliveryConfirmationController.

(** ** controllers/disputeController.js, continued *)

Module DisputeController.
Definition set_status (x : Dispute.Status) (d : Dispute.t) : Dispute.t :=
  Dispute.mk (Dispute._id d) (Dispute.auction d) (Dispute.transaction d)
             (Dispute.raisedBy d) (Dispute.against d) (Dispute.reason d) x.

(** [assignedTo] is not among the fields kept of a dispute. *)
Definition assignAdmin (disputeId : Id) : M Response :=
  catch
    (dispute <-
       findOneAndUpdate (A := Dispute.t) Direct (hasId disputeId)
         (set_status Dispute.UNDER_REVIEW) ;;
     match dispute with
     | None => ret (Json 404 "Dispute not found")
     | Some _ =>
         notify ;;
         ret (Json 200 "dispute")
     end)
    (fun _ => ret (Json 500 "Assignment failed")).

(** [resolution], the decision with its notes, is not among the fields kept
    of a dispute.  [refundToBuyer] and [releaseToVendor] are called with the
    session and drop it. *)
Definition resolveDispute (disputeId : Id) (decision : string) : M Response :=
  startSession ;;
  startTransaction ;;
  finally
    (catch
       (dispute <- findById (A := Dispute.t) InSession disputeId ;;
        match dispute with
        | None =>
            abortTransaction ;;
            ret (Json 404 "Dispute not found")
        | Some dispute =>
            let dispute := set_status Dispute.RESOLVED dispute in
            save InSession dispute ;;
            (if String.eqb decision "REFUND_BUYER"
             then refundToBuyer (Dispute.auction dispute) "DISPUTE_RESOLUTION" ;;
                  ret tt
             else if String.eqb decision "RELEASE_TO_SELLER"
             then releaseToVendor (Dispute.auction dispute) ;; ret tt
             else if String.eqb decision "PARTIAL_REFUND"
             then partialResolution (Dispute.auction dispute) (1 # 2)
             else ret tt) ;;
            commitTransaction ;;
            notify ;;
            notify ;;
            ret (Json 200 "dispute")
        end)
       (fun _ => abortTransaction ;; ret (Json 500 "Resolution failed")))
    endSession.
End DisputeController.

(** ** controllers/escrowController.js: disputes and the admin override *)

Definition linkedTo (escrowId : Id) (e : TokenTransaction.t) : bool :=
  sameId (TokenTransaction.linkedEscrow e) escrowId.

(** [isFrozen] is not among the fields kept of a ledger entry: the
    [updateMany] is one more awaited call. *)
Definition markDisputed (auctionId : Id) : M Escrow.t :=
  escrow <-
    findOneAndUpdate Direct (heldFor auctionId)
      (Escrow.set_status Escrow.DISPUTED) ;;
  match escrow with
  | None => throw (Error "Escrow not found or already released")
  | Some escrow =>
      updateMany Direct (linkedTo (Escrow._id escrow)) (fun e => e) ;;
      ret escrow
  end.

(** ** Further scenarios *)

Module Physical.
(** The closed auction of [Scenario] for a physical item: the delivery
    waits for its shipment. *)
Definition lot : Auction.t :=
  Auction.mk 10 1 100 1000 (Some 3%nat) 1 1000000 false false
             (Some 1000) (Some 1000000%Z) false false.
Definition unshipped : DeliveryConfirmation.t :=
  DeliveryConfirmation.mk 40 10 1 3
    DeliveryConfirmation.PENDING_SHIPMENT None None.
Definition store : Store :=
  mkStore (users Scenario.closed) [lot] [Scenario.winning] [Scenario.hold]
          [unshipped] [] [Scenario.holdEntry; Scenario.feeEntry].
End Physical.

Module Contested.
(** The closed auction of [Scenario] with a dispute on record while its
    escrow is still HELD. *)
Definition dispute : Dispute.t :=
  Dispute.mk 45 10 30 3 1 "not as described" Dispute.OPEN.
Definition store : Store :=
  mkStore (users Scenario.closed) (auctions Scenario.closed)
          (bids Scenario.closed) (escrows Scenario.closed)
          (confirmations Scenario.closed) [dispute] (ledger Scenario.closed).
End Contested.

(** What the call of a name that is bound to no function does: it throws and
    leaves the world as it is. *)
Definition throws {A B C} (f : A -> B -> M C) : Prop :=
  forall a b w, exists e, f a b w = (inl e, w).

(** * Facts about collections *)

Section CollectionFacts.
Context {A : Type} `{Document A}.

Lemma hasId_true (i : Id) (d : A) : hasId i d = true <-> _id d = i.
Proof. unfold hasId. apply Nat.eqb_eq. Qed.

Lemma byId_id (i : Id) (l : list A) (d : A) : byId i l = Some d -> _id d = i.
Proof.
  unfold byId. intros E. apply find_some in E. now apply hasId_true.
Qed.

Lemma byId_In (i : Id) (l : list A) (d : A) : byId i l = Some d -> In d l.
Proof. unfold byId. intros E. now apply find_some in E. Qed.

Lemma find_updateFirst_hit (p : A -> bool) (f : A -> A) (l : list A) :
  (forall d, p d = true -> p (f d) = true) ->
  find p (updateFirst p f l) = option_map f (find p l).
Proof.
  intros Hf. induction l as [|d l IH]; cbn; [reflexivity|].
  destruct (p d) eqn:E; cbn.
  - now rewrite (Hf _ E).
  - now rewrite E.
Qed.

Lemma find_updateFirst_miss (p q : A -> bool) (f : A -> A) (l : list A) :
  (forall d, q d = true -> p (f d) = p d) ->
  find p (updateFirst q f l) = find p l \/
  exists d, find q l = Some d /\ p d = true /\
            find p (updateFirst q f l) = Some (f d).
Proof.
  intros Hf. induction l as [|d l IH]; cbn; [now left|].
  destruct (q d) eqn:Eq; cbn.
  - rewrite (Hf _ Eq). destruct (p d) eqn:Ep; [right; eauto | now left].
  - destruct (p d); [now left | exact IH].
Qed.

Lemma byId_updateFirst_same (i : Id) (f : A -> A) (l : list A) :
  (forall d, _id (f d) = _id d) ->
  byId i (updateFirst (hasId i) f l) = option_map f (byId i l).
Proof.
  intros Hf. apply find_updateFirst_hit.
  intros d. unfold hasId. now rewrite Hf.
Qed.

Lemma byId_updateFirst_other (i j : Id) (f : A -> A) (l : list A) :
  i <> j ->
  (forall d, _id (f d) = _id d) ->
  byId i (updateFirst (hasId j) f l) = byId i l.
Proof.
  intros Hij Hf. unfold byId.
  induction l as [|d l IH]; cbn; [reflexivity|].
  destruct (hasId j d) eqn:Ej; cbn.
  - unfold hasId at 1 3. rewrite Hf.
    apply hasId_true in Ej.
    destruct (Nat.eqb_spec (_id d) i); [congruence | reflexivity].
  - destruct (hasId i d); [reflexivity | exact IH].
Qed.

Lemma byId_replace_same (d x : A) (l : list A) :
  byId (_id d) l = Some x -> byId (_id d) (replace d l) = Some d.
Proof.
  intros E. unfold replace, byId.
  rewrite find_updateFirst_hit.
  - unfold byId in E. now rewrite E.
  - intros _ _. now apply hasId_true.
Qed.

Lemma byId_replace_at (i : Id) (d x : A) (l : list A) :
  _id d = i -> byId i l = Some x -> byId i (replace d l) = Some d.
Proof. intros <-. apply byId_replace_same. Qed.

Lemma byId_replace_other (i : Id) (d : A) (l : list A) :
  i <> _id d -> byId i (replace d l) = byId i l.
Proof.
  intros Hi. unfold replace, byId.
  induction l as [|x l IH]; cbn; [reflexivity|].
  destruct (hasId (_id d) x) eqn:Ex; cbn.
  - apply hasId_true in Ex. unfold hasId.
    destruct (Nat.eqb_spec (_id d) i); [congruence|].
    destruct (Nat.eqb_spec (_id x) i); [congruence | reflexivity].
  - destruct (hasId i x); [reflexivity | exact IH].
Qed.

Lemma find_none_iff (p : A -> bool) (l : list A) :
  find p l = None <-> forall d, In d l -> p d = false.
Proof.
  split; [apply find_none|].
  induction l as [|d l IH]; cbn; intros Hl; [reflexivity|].
  rewrite (Hl d (or_introl eq_refl)). apply IH. intros; apply Hl. now right.
Qed.

Lemma find_some_iff (p : A -> bool) (l : list A) :
  (exists d, find p l = Some d) <-> exists d, In d l /\ p d = true.
Proof.
  split.
  - intros [d E]. exists d. now apply find_some in E.
  - intros [d [Hd Hp]]. destruct (find p l) eqn:E; [eauto|].
    rewrite (find_none _ _ E _ Hd) in Hp. discriminate.
Qed.
End CollectionFacts.

(** Symbolic execution: the monad is unfolded down to the world it runs in,
    and the projections of the records that this builds are reduced; what is
    left is stuck on a query of the database. *)
Ltac refold_stores :=
  repeat match goal with
         | s : Store |- _ =>
             progress
               (fold (users s); fold (auctions s); fold (bids s);
                fold (escrows s); fold (confirmations s); fold (disputes s);
                fold (ledger s))
         end.

Ltac refold_stores_in H :=
  repeat match goal with
         | s : Store |- _ =>
             progress
               (fold (users s) in H; fold (auctions s) in H;
                fold (bids s) in H; fold (escrows s) in H;
                fold (confirmations s) in H; fold (disputes s) in H;
                fold (ledger s) in H)
         end.

Ltac run :=
  cbv beta iota zeta delta
      [catch finally try_ bind findById findByIdPopulated findOne
       findOneSortDesc findOneLatest create save findOneAndUpdate updateOne
       updateMany findByIdAndUpdate findByIdAndDelete notify query update
       startSession startTransaction commitTransaction abortTransaction
       endSession tick ret throw fresh Date_now boot current apply option_map
       populate doc vendor_ highestBidder_ db view fuse nextId clock users
       auctions bids escrows confirmations disputes ledger coll with_coll
       UserModel AuctionModel BidModel EscrowModel DeliveryConfirmationModel
       DisputeModel TokenTransactionModel];
  refold_stores.

Ltac run_in H :=
  cbv beta iota zeta delta
      [catch finally try_ bind findById findByIdPopulated findOne
       findOneSortDesc findOneLatest create save findOneAndUpdate updateOne
       updateMany findByIdAndUpdate findByIdAndDelete notify query update
       startSession startTransaction commitTransaction abortTransaction
       endSession tick ret throw fresh Date_now boot current apply option_map
       populate doc vendor_ highestBidder_ db view fuse nextId clock users
       auctions bids escrows confirmations disputes ledger coll with_coll
       UserModel AuctionModel BidModel EscrowModel DeliveryConfirmationModel
       DisputeModel TokenTransactionModel] in H;
  refold_stores_in H.

Lemma credit_id (x : Q) (u : User.t) : _id (credit x u) = _id u.
Proof. reflexivity. Qed.

Lemma inject_nat_succ (n : nat) :
  (inject_Z (Z.of_nat (S n)) == inject_Z (Z.of_nat n) + 1)%Q.
Proof.
  rewrite Nat2Z.inj_succ. unfold Z.succ. now rewrite inject_Z_plus.
Qed.

(** * confirmReceipt *)

(** One call of [confirmReceipt] by the highest bidder. *)
Lemma confirmReceipt_run (s : Store) (next : Id) (now : Time)
      (auctionId userId : Id) (a : Auction.t) (v : User.t) (W : Q) :
  byId auctionId (auctions s) = Some a ->
  Auction.highestBidder a = Some userId ->
  byId (Auction.vendor a) (users s) = Some v ->
  Auction.winningBidAmount a = Some W ->
  confirmReceipt auctionId userId (boot s next now None) =
  (inr receiptConfirmed,
   boot (with_coll
           (replace (Auction.set_vendorPaid true
                       (Auction.set_winnerConfirmed true a)) (auctions s))
           (with_coll (replace (credit (W * (9 # 10)) v) (users s)) s))
        next now None).
Proof.
  intros Ha Hb Hv HW.
  unfold confirmReceipt. run.
  rewrite Ha. run. rewrite Hb. cbn [sameId]. rewrite Nat.eqb_refl.
  cbn [negb]. run.
  cbn [Auction.vendor Auction.winningBidAmount Auction.set_vendorPaid
       Auction.set_winnerConfirmed].
  rewrite Hv, HW. reflexivity.
Qed.

(** C10. [confirmReceipt], called by the highest bidder of an auction that has
    a winning amount W, answers 200 on each of n successive calls; after them
    the vendor's balance has grown by n times 0.9 W, while the vendor's
    escrowed balance, every other user (the buyer among them), the escrows,
    the delivery confirmations, the ledger, the bids and the disputes are as
    they were.  Nothing in the state is read that would refuse a repeated
    call. *)
Theorem confirmReceipt_pays_vendor_on_every_call :
  forall (n : nat) (s : Store) (next : Id) (now : Time) (auctionId userId : Id)
         (a : Auction.t) (v : User.t) (W : Q),
    byId auctionId (auctions s) = Some a ->
    Auction.highestBidder a = Some userId ->
    byId (Auction.vendor a) (users s) = Some v ->
    Auction.winningBidAmount a = Some W ->
    exists (s' : Store) (v' : User.t),
      repeatedly n (confirmReceipt auctionId userId) (boot s next now None)
      = (inr (repeat receiptConfirmed n), boot s' next now None)
      /\ byId (Auction.vendor a) (users s') = Some v'
      /\ (User.balance v'
          == User.balance v + inject_Z (Z.of_nat n) * (W * (9 # 10)))%Q
      /\ User.escrowedBalance v' = User.escrowedBalance v
      /\ (forall i, i <> Auction.vendor a ->
                    byId i (users s') = byId i (users s))
      /\ escrows s' = escrows s
      /\ confirmations s' = confirmations s
      /\ ledger s' = ledger s
      /\ bids s' = bids s
      /\ disputes s' = disputes s.
Proof.
  induction n as [|n IH]; intros s next now auctionId userId a v W Ha Hb Hv HW.
  - exists s, v. cbn. repeat split; try reflexivity; try assumption.
    rewrite Qmult_0_l, Qplus_0_r. reflexivity.
  - pose proof (confirmReceipt_run s next now auctionId userId a v W Ha Hb Hv HW)
      as Hrun.
    set (a1 := Auction.set_vendorPaid true (Auction.set_winnerConfirmed true a))
      in *.
    set (v1 := credit (W * (9 # 10)) v) in *.
    set (s1 := with_coll (replace a1 (auctions s))
                         (with_coll (replace v1 (users s)) s)) in *.
    assert (Ha1 : byId auctionId (auctions s1) = Some a1).
    { apply (byId_replace_at (A := Auction.t)) with (x := a); [|exact Ha].
      exact (byId_id _ _ _ Ha). }
    assert (Hv1 : byId (Auction.vendor a1) (users s1) = Some v1).
    { apply (byId_replace_at (A := User.t)) with (x := v); [|exact Hv].
      exact (byId_id _ _ _ Hv). }
    destruct (IH s1 next now auctionId userId a1 v1 W Ha1 Hb Hv1 HW)
      as (s' & v' & Hrep & Hv' & Hbal & Hesc & Hoth & He & Hc & Hl & Hbd & Hd).
    exists s', v'. split.
    + cbn [repeatedly repeat]. unfold bind at 1. rewrite Hrun.
      unfold bind at 1. rewrite Hrep. reflexivity.
    + repeat split; try assumption.
      * rewrite Hbal, inject_nat_succ. subst v1. cbn. ring.
      * intros i Hi. rewrite (Hoth i Hi). subst s1. cbn.
        apply byId_replace_other. cbn.
        pose proof (byId_id _ _ _ Hv) as Hid. cbn in Hid. congruence.
Qed.

Lemma confirmReceipt_pays_vendor_on_every_call_witness :
  exists (s' : Store) (v' : User.t),
    repeatedly 2 (confirmReceipt 10 3) (boot Scenario.closed 50 2000000 None)
    = (inr (repeat receiptConfirmed 2), boot s' 50%nat 2000000%Z None)
    /\ byId 1%nat (users s') = Some v'
    /\ (User.balance v' == 0 + inject_Z (Z.of_nat 2) * (1000 * (9 # 10)))%Q
    /\ User.escrowedBalance v' = None
    /\ (forall i, i <> 1%nat ->
                  byId i (users s') = byId i (users Scenario.closed))
    /\ escrows s' = escrows Scenario.closed
    /\ confirmations s' = confirmations Scenario.closed
    /\ ledger s' = ledger Scenario.closed
    /\ bids s' = bids Scenario.closed
    /\ disputes s' = disputes Scenario.closed.
Proof.
  apply (confirmReceipt_pays_vendor_on_every_call
           2 Scenario.closed 50%nat 2000000%Z 10%nat 3%nat Scenario.lotClosed
           Scenario.vendor 1000);
    reflexivity.
Defined.

(** * retractBid *)

(** C3, counterexample.  alice retracts her bid of 110: she is answered 200,
    her balance goes from 390 to 489, and her escrowed balance is still
    110. *)
Lemma retractBid_leaves_escrowedBalance :
  ~ retraction_dissolves_hold Bidding.store 50 2000 20 2.
Proof.
  intros H.
  destruct (H "refunded"%string _ eq_refl)
    as (bid & user & user' & Hb & Hu & Hu' & _ & Hesc).
  vm_compute in Hb, Hu, Hu'.
  injection Hb as <-. injection Hu as <-. injection Hu' as <-.
  vm_compute in Hesc. discriminate Hesc.
Qed.

(** C3, as amended.  A retraction answered 200 was asked by the bidder no
    later than the auction's end time; it adds exactly
    [amount - max (amount * 10%, 0.5)] to the bidder's available balance and
    leaves the bidder's escrowed balance as it was. *)
Theorem retractBid_refunds_amount_less_penalty :
  forall (s : Store) (next : Id) (now : Time) (bidId userId : Id)
         (msg : string) (w' : World),
    retractBid bidId userId (boot s next now None) = (inr (Json 200 msg), w') ->
    exists bid auction user user',
      byId bidId (bids s) = Some bid
      /\ Bid.bidder bid = userId
      /\ byId (Bid.auction bid) (auctions s) = Some auction
      /\ (now <= Auction.endTime auction)%Z
      /\ byId userId (users s) = Some user
      /\ byId userId (users (db w')) = Some user'
      /\ (User.balance user'
          == User.balance user
             + (Bid.amount bid - Qmax (Bid.amount bid * (1 # 10)) (1 # 2)))%Q
      /\ User.escrowedBalance user' = User.escrowedBalance user.
Proof.
  intros s next now bidId userId msg w' H.
  unfold retractBid in H. run_in H.
  destruct (byId bidId (bids s)) as [bid|] eqn:Eb; run_in H; [|discriminate].
  destruct (Nat.eqb_spec (Bid.bidder bid) userId) as [Hbidder|];
    cbn [negb] in H; run_in H; [|discriminate].
  destruct (byId (Bid.auction bid) (auctions s)) as [auction|] eqn:Ea;
    run_in H; [|discriminate].
  destruct (now >? Auction.endTime auction)%Z eqn:Et; run_in H;
    [discriminate|].
  cbn [Bid.bidder Bid.amount Bid.auction Bid.set_retractionPenalty
       Bid.set_isRetracted] in H.
  destruct (byId (Bid.bidder bid) (users s)) as [user|] eqn:Eu;
    run_in H; [|discriminate].
  assert (Hu' : users (db w')
                = replace (User.set_balance
                             (User.balance user
                              + (Bid.amount bid
                                 - retractionPenaltyOf (Bid.amount bid)))%Q user)
                          (users s)).
  { destruct (sameId (Auction.highestBidder auction) (Bid.bidder bid));
      run_in H; injection H as _ <-; reflexivity. }
  exists bid, auction, user, (User.set_balance
                                (User.balance user
                                 + (Bid.amount bid
                                    - retractionPenaltyOf (Bid.amount bid)))%Q
                                user).
  subst userId. repeat split; try assumption.
  - rewrite Z.gtb_ltb in Et. now apply Z.ltb_ge in Et.
  - rewrite Hu'.
    apply (byId_replace_at (A := User.t)) with (x := user); [|exact Eu].
    exact (byId_id _ _ _ Eu).
Qed.

Lemma retractBid_refunds_amount_less_penalty_witness :
  exists bid auction user user',
    byId 20 (bids Bidding.store) = Some bid
    /\ Bid.bidder bid = 2%nat
    /\ byId (Bid.auction bid) (auctions Bidding.store) = Some auction
    /\ (2000 <= Auction.endTime auction)%Z
    /\ byId 2 (users Bidding.store) = Some user
    /\ byId 2 (users (db (snd (retractBid 20 2 (boot Bidding.store 50 2000 None)))))
       = Some user'
    /\ (User.balance user'
        == User.balance user
           + (Bid.amount bid - Qmax (Bid.amount bid * (1 # 10)) (1 # 2)))%Q
    /\ User.escrowedBalance user' = User.escrowedBalance user.
Proof.
  apply (retractBid_refunds_amount_less_penalty
           Bidding.store 50%nat 2000%Z 20%nat 2%nat "refunded"%string).
  reflexivity.
Defined.

(** * releaseToVendor and refundToBuyer *)






(** * partialResolution *)




(** * confirmDelivery *)

Lemma confirmDelivery_leaves_two_fee_entries :
  ~ delivery_leaves_one_entry_pair Scenario.closed 50 2000000 10 3.
Proof.
  intros H.
  assert (E : confirmDelivery 10 3 (boot Scenario.closed 50 2000000 None)
              = delivered) by (vm_compute; reflexivity).
  destruct (H _ _ E) as [_ Hfee].
  vm_compute in Hfee. discriminate Hfee.
Qed.

Lemma updateFirst_app_miss {A} (p : A -> bool) (f : A -> A) (l l2 : list A) :
  (forall x, In x l2 -> p x = false) ->
  updateFirst p f (l ++ l2) = updateFirst p f l ++ l2.
Proof.
  intros Hl2. induction l as [|d l IH]; cbn.
  - induction l2 as [|x l2 IH2]; cbn; [reflexivity|].
    rewrite (Hl2 x (or_introl eq_refl)). f_equal. apply IH2.
    intros y Hy. apply Hl2. now right.
  - destruct (p d); [reflexivity | now rewrite IH].
Qed.

Lemma filter_updateFirst_length {A} (p q : A -> bool) (f : A -> A) (l : list A) :
  (forall x, p x = true -> q x = false /\ q (f x) = true) ->
  List.length (filter q (updateFirst p f l))
  = (List.length (filter q l) + if existsb p l then 1 else 0)%nat.
Proof.
  intros Hp. induction l as [|d l IH]; cbn; [reflexivity|].
  destruct (p d) eqn:Ep; cbn.
  - destruct (Hp d Ep) as [-> ->]. cbn. lia.
  - destruct (q d); cbn; rewrite IH; lia.
Qed.

Lemma In_byId {A} `{Document A} (d : A) (l : list A) :
  In d l -> exists x, byId (_id d) l = Some x.
Proof.
  intros Hd. apply find_some_iff. exists d. split; [exact Hd|].
  now apply hasId_true.
Qed.

Lemma pendingFee_flips (auctionId : Id) (x : TokenTransaction.t) :
  pendingFee auctionId x = true ->
  successfulFee auctionId x = false
  /\ successfulFee auctionId
       (TokenTransaction.set_status TokenTransaction.SUCCESS x) = true.
Proof.
  unfold pendingFee, successfulFee, feeOf, succeeded.
  destruct x as [i u ty am st la le]; cbn.
  destruct (sameId la auctionId), ty, st; cbn; intros E;
    try discriminate E; split; reflexivity.
Qed.

Lemma successfulFee_payout (auctionId i u : Id) (x : Q) (le : option Id) :
  successfulFee auctionId
    (TokenTransaction.mk i u TokenTransaction.PAYOUT_VENDOR x
                         TokenTransaction.SUCCESS (Some auctionId) le)
  = false.
Proof.
  unfold successfulFee, feeOf. cbn. now rewrite Nat.eqb_refl.
Qed.

Lemma successfulFee_fee (auctionId i u : Id) (x : Q) (le : option Id) :
  successfulFee auctionId
    (TokenTransaction.mk i u TokenTransaction.PLATFORM_FEE x
                         TokenTransaction.SUCCESS (Some auctionId) le)
  = true.
Proof.
  unfold successfulFee, feeOf. cbn. now rewrite Nat.eqb_refl.
Qed.

Lemma awaitingBuyer_auction (auctionId userId : Id)
      (c : DeliveryConfirmation.t) :
  awaitingBuyer auctionId userId c = true ->
  DeliveryConfirmation.auction c = auctionId.
Proof.
  unfold awaitingBuyer. rewrite !andb_true_iff, Nat.eqb_eq. tauto.
Qed.

(** C5, as amended.  A [confirmDelivery] that answers 200 found a delivery
    awaited by the caller and a HELD escrow of the auction, of tokenAmount N.
    It sets that escrow to RELEASED, adds exactly 0.9 N to the vendor's
    balance and touches no other user, flips the auction's first PENDING
    PLATFORM_FEE entry, if there is one, to SUCCESS, and appends one
    PAYOUT_VENDOR entry of 0.9 N and one PLATFORM_FEE entry of 0.1 N, both
    SUCCESS and linked to the escrow.  The flipped entry stays next to the
    appended one: the SUCCESS PLATFORM_FEE entries of the auction grow by two
    when a pending entry was there, by one otherwise. *)
Theorem confirmDelivery_releases_and_records_fee_again :
  forall (s : Store) (next : Id) (now : Time) (auctionId userId : Id)
         (msg : string) (w' : World),
    confirmDelivery auctionId userId (boot s next now None)
    = (inr (Json 200 msg), w') ->
    exists c e e' payout fee,
      find (awaitingBuyer auctionId userId) (confirmations s) = Some c
      /\ find (heldFor auctionId) (escrows s) = Some e
      /\ byId (Escrow._id e) (escrows (db w')) = Some e'
      /\ Escrow.status e' = Escrow.RELEASED
      /\ Escrow.tokenAmount e' = Escrow.tokenAmount e
      /\ (forall v, byId (Escrow.vendor e) (users s) = Some v ->
            exists v', byId (Escrow.vendor e) (users (db w')) = Some v'
                       /\ (User.balance v'
                           == User.balance v
                              + (9 # 10) * Escrow.tokenAmount e)%Q
                       /\ User.escrowedBalance v' = User.escrowedBalance v)
      /\ (forall i, i <> Escrow.vendor e ->
                    byId i (users (db w')) = byId i (users s))
      /\ ledger (db w')
         = updateFirst (pendingFee auctionId)
                       (TokenTransaction.set_status TokenTransaction.SUCCESS)
                       (ledger s)
           ++ [payout; fee]
      /\ TokenTransaction.type payout = TokenTransaction.PAYOUT_VENDOR
      /\ TokenTransaction.status payout = TokenTransaction.SUCCESS
      /\ (TokenTransaction.amount payout == (9 # 10) * Escrow.tokenAmount e)%Q
      /\ TokenTransaction.linkedEscrow payout = Some (Escrow._id e)
      /\ TokenTransaction.type fee = TokenTransaction.PLATFORM_FEE
      /\ TokenTransaction.status fee = TokenTransaction.SUCCESS
      /\ (TokenTransaction.amount fee == (1 # 10) * Escrow.tokenAmount e)%Q
      /\ TokenTransaction.linkedAuction fee = Some auctionId
      /\ TokenTransaction.linkedEscrow fee = Some (Escrow._id e)
      /\ List.length (filter (successfulFee auctionId) (ledger (db w')))
         = (List.length (filter (successfulFee auctionId) (ledger s))
            + if existsb (pendingFee auctionId) (ledger s) then 2 else 1)%nat.
Proof.
  intros s next now auctionId userId msg w' H.
  unfold confirmDelivery, releaseEscrow in H. run_in H.
  destruct (find (awaitingBuyer auctionId userId) (confirmations s))
    as [c|] eqn:Ec; run_in H; [|discriminate].
  pose proof (find_some _ _ Ec) as [_ Hc].
  apply awaitingBuyer_auction in Hc.
  cbn [DeliveryConfirmation.auction DeliveryConfirmation.set_deliveredAt
       DeliveryConfirmation.set_status] in H.
  rewrite Hc in H.
  destruct (find (heldFor auctionId) (escrows s)) as [e|] eqn:Ee; run_in H;
    [|discriminate].
  injection H as _ <-. cbn [db users escrows ledger].
  pose proof (find_some _ _ Ee) as [Hin _].
  destruct (In_byId e (escrows s) Hin) as [x Hx].
  rewrite <- app_assoc. cbn [app].
  rewrite updateFirst_app_miss
    by (intros y [<-|[<-|[]]]; unfold pendingFee; cbn;
        rewrite andb_false_r; reflexivity).
  do 5 eexists.
  split; [reflexivity|].
  split; [reflexivity|].
  split.
  { apply (byId_replace_at (A := Escrow.t)) with (x := x); [reflexivity|].
    exact Hx. }
  split; [reflexivity|].
  split; [reflexivity|].
  split.
  { intros v Hv. eexists. split; [|split].
    - cbn. rewrite byId_updateFirst_same by (auto using credit_id).
      rewrite Hv. reflexivity.
    - cbn. ring.
    - reflexivity. }
  split.
  { intros i Hi. cbn. now apply byId_updateFirst_other. }
  split; [reflexivity|].
  cbn.
  repeat (split; [reflexivity || ring|]).
  rewrite filter_app, length_app, filter_updateFirst_length
    by (apply pendingFee_flips).
  cbn [filter]. rewrite successfulFee_payout, successfulFee_fee.
  cbn [List.length].
  destruct (existsb (pendingFee auctionId) (ledger s)); lia.
Qed.

Lemma confirmDelivery_releases_and_records_fee_again_witness :
  exists c e e' payout fee,
    find (awaitingBuyer 10 3) (confirmations Scenario.closed) = Some c
    /\ find (heldFor 10) (escrows Scenario.closed) = Some e
    /\ byId (Escrow._id e) (escrows (db (snd delivered))) = Some e'
    /\ Escrow.status e' = Escrow.RELEASED
    /\ Escrow.tokenAmount e' = Escrow.tokenAmount e
    /\ (forall v, byId (Escrow.vendor e) (users Scenario.closed) = Some v ->
          exists v', byId (Escrow.vendor e) (users (db (snd delivered)))
                     = Some v'
                     /\ (User.balance v'
                         == User.balance v + (9 # 10) * Escrow.tokenAmount e)%Q
                     /\ User.escrowedBalance v' = User.escrowedBalance v)
    /\ (forall i, i <> Escrow.vendor e ->
                  byId i (users (db (snd delivered)))
                  = byId i (users Scenario.closed))
    /\ ledger (db (snd delivered))
       = updateFirst (pendingFee 10)
                     (TokenTransaction.set_status TokenTransaction.SUCCESS)
                     (ledger Scenario.closed)
         ++ [payout; fee]
    /\ TokenTransaction.type payout = TokenTransaction.PAYOUT_VENDOR
    /\ TokenTransaction.status payout = TokenTransaction.SUCCESS
    /\ (TokenTransaction.amount payout == (9 # 10) * Escrow.tokenAmount e)%Q
    /\ TokenTransaction.linkedEscrow payout = Some (Escrow._id e)
    /\ TokenTransaction.type fee = TokenTransaction.PLATFORM_FEE
    /\ TokenTransaction.status fee = TokenTransaction.SUCCESS
    /\ (TokenTransaction.amount fee == (1 # 10) * Escrow.tokenAmount e)%Q
    /\ TokenTransaction.linkedAuction fee = Some 10%nat
    /\ TokenTransaction.linkedEscrow fee = Some (Escrow._id e)
    /\ List.length (filter (successfulFee 10) (ledger (db (snd delivered))))
       = (List.length (filter (successfulFee 10) (ledger Scenario.closed))
          + if existsb (pendingFee 10) (ledger Scenario.closed)
            then 2 else 1)%nat.
Proof.
  apply (confirmDelivery_releases_and_records_fee_again
           Scenario.closed 50%nat 2000000%Z 10%nat 3%nat
           "Delivery confirmed. Vendor payment released."%string).
  vm_compute. reflexivity.
Defined.

(** * raiseDispute *)




(** [openDispute] of the delivery controller reads no date: its answer and
    its effect are the same at any two instants, and a delivery that is
    DELIVERED is refused whenever it is asked. *)
Lemma openDispute_reads_no_clock (s : Store) (next : Id) (t1 t2 : Time)
      (auctionId userId : Id) (reason : string) :
  fst (openDispute auctionId userId reason (boot s next t1 None))
  = fst (openDispute auctionId userId reason (boot s next t2 None))
  /\ db (snd (openDispute auctionId userId reason (boot s next t1 None)))
     = db (snd (openDispute auctionId userId reason (boot s next t2 None))).
Proof.
  unfold openDispute. run.
  destruct (find (disputable auctionId userId) (confirmations s));
    split; reflexivity.
Qed.

Lemma openDispute_refuses_delivered (s : Store) (next : Id) (now : Time)
      (auctionId userId : Id) (reason : string) :
  (forall c, In c (confirmations s) ->
             DeliveryConfirmation.auction c = auctionId ->
             DeliveryConfirmation.buyer c = userId ->
             DeliveryConfirmation.status c = DeliveryConfirmation.DELIVERED) ->
  openDispute auctionId userId reason (boot s next now None)
  = (inr (Json 400 "Cannot dispute this delivery"), boot s next now None).
Proof.
  intros Hall.
  assert (E : find (disputable auctionId userId) (confirmations s) = None).
  { apply find_none_iff. intros c Hc. unfold disputable.
    destruct (Nat.eqb_spec (DeliveryConfirmation.auction c) auctionId);
      [|reflexivity].
    destruct (Nat.eqb_spec (DeliveryConfirmation.buyer c) userId);
      [|reflexivity].
    now rewrite (Hall c Hc). }
  unfold openDispute. run. rewrite E. reflexivity.
Qed.

(** * setWinningBid *)

Section Greatest.
Context {A : Type} (key : A -> Q) (p : A -> bool).




End Greatest.






(** The query of [setWinningBid] has no [isRetracted] filter either, unlike
    the recomputation in [retractBid]: the retracted bid of 200 is marked
    winning. *)
Example setWinningBid_takes_retracted_bid :
  fst (setWinningBid 10 (boot Retracted.store 50 1000001 None))
  = inr (Some (Bid.set_isWinningBid true Retracted.withdrawn)).
Proof. vm_compute. reflexivity. Qed.



(** * Sequences of bids *)









Example outbid_accepted :
  accepted 10 Outbid.ops Scenario.opened 50 = [106; 112]%Q.
Proof. vm_compute. reflexivity. Qed.

(** * Failures inside placeBid *)

(** C2.  bob, whose balance is 500 with nothing escrowed, bids 120 on the
    auction where alice leads with 110.  Whichever call of
    [finalizeBidPlacement] is rejected, the bid is answered 500 and no bid
    record is left, yet bob's balance is 380 and his escrowed balance 120:
    the catch block deletes the bid and does not undo the debit of
    [escrowBidTokens]. *)
Theorem placeBid_failure_keeps_the_debit :
  byId 3 (users Bidding.store) = Some (User.mk 3 500 None)
  /\ Forall (fun k =>
               fst (afterFailedBid k) = inr (Json 500 "Bid failed")
               /\ bids (db (snd (afterFailedBid k))) = bids Bidding.store
               /\ byId 3 (users (db (snd (afterFailedBid k))))
                  = Some (User.mk 3 380 (Some 120)))
            [6; 7; 8; 9; 10; 11]%nat.
Proof.
  split; [reflexivity|].
  repeat constructor; vm_compute; reflexivity.
Qed.

(** * Failures inside closeAuction *)


(** * Further properties of the controllers *)

Ltac tidy :=
  repeat match goal with
         | H : Some _ = Some _ |- _ => inversion H; subst; clear H
         | H : Some _ = None |- _ => discriminate H
         | H : None = Some _ |- _ => discriminate H
         | H : true = false |- _ => discriminate H
         | H : false = true |- _ => discriminate H
         | H : ?x = _, H' : ?x = _ |- _ => rewrite H in H'
         end.

(** One step of a symbolic run: decide the test that the run is stuck on. *)
Ltac split_stuck :=
  match goal with
  | H : ?x = _ |- context [match ?x with Some _ => _ | None => _ end] =>
      rewrite H
  | H : ?x = _ |- context [if ?x then _ else _] =>
      rewrite H
  | |- context [match ?x with Some _ => _ | None => _ end] =>
      destruct x eqn:?
  | |- context [match ?x with O => _ | S _ => _ end] =>
      destruct x
  | |- context [if ?b then _ else _] =>
      destruct b eqn:?
  end; tidy.


Ltac explore := repeat (run; cbn [fst snd]; split_stuck); run; cbn [fst snd].

(** X1.  [confirmDelivery] is all or nothing: whichever awaited call is
    rejected, the database afterwards is either the one before the request
    or the one that the request leaves when no call is rejected; and it is
    the latter whenever the answer is 200. *)
Theorem confirmDelivery_all_or_nothing :
  forall (s : Store) (next : Id) (now : Time) (auctionId userId : Id)
         (failAt : option nat),
    let done := confirmDelivery auctionId userId (boot s next now failAt) in
    let whole := confirmDelivery auctionId userId (boot s next now None) in
    (db (snd done) = s /\ answered 200 (fst done) = false)
    \/ (db (snd done) = db (snd whole) /\ fst done = fst whole).
Proof.
  intros s next now auctionId userId [k|]; [|right; split; reflexivity].
  unfold confirmDelivery, releaseEscrow.
  explore.
  all: try (left; split; reflexivity).
  all: try (right; split; reflexivity).
Qed.

(** ** The escrow controller *)

Section Settling.
Context {A : Type} `{Document A}.

(** Saving over the only document that satisfies [p] a version that does
    not, leaves none that does. *)
Lemma find_replace_settled (p : A -> bool) (l : list A) (e e' : A) :
  NoDup (map _id l) ->
  In e l ->
  (forall x, In x l -> p x = true -> x = e) ->
  _id e' = _id e ->
  p e' = false ->
  find p (replace e' l) = None.
Proof.
  intros Hnd He Hone Hid Hp. apply find_none_iff.
  unfold replace. rewrite Hid. clear Hid.
  induction l as [|d l IH]; cbn; [tauto|].
  inversion Hnd as [|i l' Hnotin Hnd']; subst.
  destruct (hasId (_id e) d) eqn:Ed; cbn.
  - apply hasId_true in Ed.
    intros x [<-|Hx]; [exact Hp|].
    destruct (p x) eqn:Epx; [|reflexivity].
    exfalso. apply Hnotin. rewrite Ed.
    rewrite <- (Hone x (or_intror Hx) Epx). now apply in_map.
  - assert (Hd : e <> d).
    { intros <-. unfold hasId in Ed. rewrite Nat.eqb_refl in Ed. discriminate. }
    destruct He as [He|He]; [congruence|].
    intros x [<-|Hx].
    + destruct (p d) eqn:Epd; [|reflexivity].
      exfalso. apply Hd. symmetry. apply Hone; [now left | exact Epd].
    + apply IH; auto. intros y Hy. apply Hone. now right.
Qed.

(** An update of the first document that satisfies [p], when that document
    is the only one to satisfy [q] and its new version does not, leaves none
    that satisfies [q]. *)
Lemma find_updateFirst_gone (p q : A -> bool) (f : A -> A) (l : list A)
      (e : A) :
  NoDup (map _id l) ->
  find p l = Some e ->
  (forall x, In x l -> q x = true -> x = e) ->
  q (f e) = false ->
  find q (updateFirst p f l) = None.
Proof.
  intros Hnd He Hone Hq. apply find_none_iff.
  induction l as [|d l IH]; cbn; [tauto|].
  inversion Hnd as [|i l' Hnotin Hnd']; subst.
  cbn in He. destruct (p d) eqn:Ed; cbn.
  - inversion He; subst.
    intros x [<-|Hx]; [exact Hq|].
    destruct (q x) eqn:Eqx; [|reflexivity].
    exfalso. apply Hnotin.
    rewrite <- (Hone x (or_intror Hx) Eqx). now apply in_map.
  - assert (Hd : d <> e).
    { intros ->. apply find_some in He. destruct He as [_ He]. congruence. }
    intros x [<-|Hx].
    + destruct (q d) eqn:Eqd; [|reflexivity].
      exfalso. apply Hd. apply Hone; [now left | exact Eqd].
    + apply IH; auto. intros y Hy. apply Hone. now right.
Qed.

(** An update of the first document that satisfies [p] into one that
    satisfies [q], when no document satisfied [q] before, makes it the one
    that a query for [q] finds. *)
Lemma find_updateFirst_new (p q : A -> bool) (f : A -> A) (l : list A)
      (e : A) :
  find p l = Some e ->
  (forall x, In x l -> q x = false) ->
  q (f e) = true ->
  find q (updateFirst p f l) = Some (f e).
Proof.
  intros He Hnone Hq.
  induction l as [|d l IH]; cbn in *; [discriminate|].
  destruct (p d) eqn:Ed; cbn.
  - inversion He; subst. now rewrite Hq.
  - rewrite (Hnone d (or_introl eq_refl)). apply IH; auto.
Qed.

Lemma replace_same (d : A) (l : list A) :
  byId (_id d) l = Some d -> replace d l = l.
Proof.
  unfold byId, replace.
  induction l as [|x l IH]; cbn; [reflexivity|].
  destruct (hasId (_id d) x) eqn:Ex.
  - now intros [= ->].
  - intros E. now rewrite IH.
Qed.
End Settling.

Lemma heldFor_release (auctionId : Id) (now : Time) (reason : string)
      (st : Escrow.Status) (e : Escrow.t) :
  st <> Escrow.HELD -> heldFor auctionId (release now reason st e) = false.
Proof.
  intros Hst. unfold heldFor, release.
  destruct e, st; cbn; try congruence; apply andb_false_r.
Qed.

(** X3.  [createEscrow] on a stored auction whose highest bidder and vendor
    are stored users and whose stored [winningBidAmount] is a number other
    than zero: a HELD escrow of that amount between the two is appended, and
    an ESCROW_HOLD ledger entry of the same amount linked to it; no balance
    moves and nothing else changes. *)
Theorem createEscrow_holds_the_stored_amount :
  forall (s : Store) (next : Id) (now : Time) (auctionId b : Id)
         (a : Auction.t) (buyer vendor : User.t) (amount : Q),
    byId auctionId (auctions s) = Some a ->
    Auction.highestBidder a = Some b ->
    byId b (users s) = Some buyer ->
    byId (Auction.vendor a) (users s) = Some vendor ->
    Auction.winningBidAmount a = Some amount ->
    ~ (amount == 0)%Q ->
    let escrow :=
      Escrow.mk next auctionId b (Auction.vendor a) amount Escrow.HELD
                None None in
    let entry :=
      TokenTransaction.mk (S next) b TokenTransaction.ESCROW_HOLD amount
                          TokenTransaction.SUCCESS (Some auctionId)
                          (Some next) in
    createEscrow auctionId (boot s next now None)
    = (inr escrow,
       boot (mkStore (users s) (auctions s) (bids s) (escrows s ++ [escrow])
                     (confirmations s) (disputes s) (ledger s ++ [entry]))
            (S (S next)) now None).
Proof.
  intros s next now auctionId b a buyer vendor amount Ha Hb Hu Hv Hw Hnz.
  unfold createEscrow. run. rewrite Ha. run. rewrite Hb, Hu, Hv, Hw.
  cbn [truthy negb].
  destruct (Qeq_bool amount 0) eqn:E; [apply Qeq_bool_iff in E; tauto|].
  cbn [negb]. run.
  pose proof (byId_id _ _ _ Hu) as Iu. pose proof (byId_id _ _ _ Hv) as Iv.
  cbn in Iu, Iv. rewrite Iu, Iv. reflexivity.
Qed.

Lemma createEscrow_holds_the_stored_amount_witness :
  createEscrow 10 (boot Scenario.closed 50 2000000 None)
  = (inr (Escrow.mk 50 10 3 1 1000 Escrow.HELD None None),
     boot (mkStore (users Scenario.closed) (auctions Scenario.closed)
             (bids Scenario.closed)
             (escrows Scenario.closed
              ++ [Escrow.mk 50 10 3 1 1000 Escrow.HELD None None])
             (confirmations Scenario.closed) (disputes Scenario.closed)
             (ledger Scenario.closed
              ++ [TokenTransaction.mk 51 3 TokenTransaction.ESCROW_HOLD 1000
                    TokenTransaction.SUCCESS (Some 10%nat) (Some 50%nat)]))
          52 2000000 None).
Proof.
  apply (createEscrow_holds_the_stored_amount
           Scenario.closed 50%nat 2000000%Z 10%nat 3%nat Scenario.lotClosed
           (User.mk 3 0 (Some 1000%Q)) Scenario.vendor 1000%Q);
    try reflexivity.
  vm_compute. discriminate.
Defined.

(** X4.  [createEscrow] refuses, and writes nothing, unless the auction is
    stored with a highest bidder who is a stored user and with a stored
    [winningBidAmount] other than zero. *)
Theorem createEscrow_refuses_without_stored_amount :
  forall (s : Store) (next : Id) (now : Time) (auctionId : Id),
    (forall a b buyer amount,
        byId auctionId (auctions s) = Some a ->
        Auction.highestBidder a = Some b ->
        byId b (users s) = Some buyer ->
        Auction.winningBidAmount a = Some amount ->
        (amount == 0)%Q) ->
    createEscrow auctionId (boot s next now None)
    = (inl (Error "Invalid auction state for escrow"), boot s next now None).
Proof.
  intros s next now auctionId Hno.
  unfold createEscrow. run.
  destruct (byId auctionId (auctions s)) as [a|] eqn:Ha; run; [|reflexivity].
  destruct (Auction.highestBidder a) as [b|] eqn:Hb; [|reflexivity].
  destruct (byId b (users s)) as [buyer|] eqn:Hu; [|reflexivity].
  destruct (Auction.winningBidAmount a) as [amount|] eqn:Hw; [|reflexivity].
  specialize (Hno a b buyer amount eq_refl Hb Hu Hw).
  apply Qeq_bool_iff in Hno. cbn [truthy negb]. rewrite Hno. reflexivity.
Qed.

Lemma createEscrow_refuses_without_stored_amount_witness :
  createEscrow 10 (boot Scenario.opened 50 2000000 None)
  = (inl (Error "Invalid auction state for escrow"),
     boot Scenario.opened 50 2000000 None).
Proof.
  apply (createEscrow_refuses_without_stored_amount
           Scenario.opened 50%nat 2000000%Z 10%nat).
  intros a b buyer amount Ha Hb. vm_compute in Ha.
  inversion Ha; subst. discriminate Hb.
Defined.

Lemma releaseToVendor_run (s : Store) (next : Id) (now : Time)
      (auctionId : Id) (e : Escrow.t) (a : Auction.t) :
  find (heldFor auctionId) (escrows s) = Some e ->
  byId auctionId (auctions s) = Some a ->
  releaseToVendor auctionId (boot s next now None)
  = (inr (release now "DELIVERY_CONFIRMED" Escrow.RELEASED e),
     boot (mkStore
             (updateFirst (hasId (Escrow.vendor e))
                (credit (Escrow.tokenAmount e
                         - Escrow.tokenAmount e * (1 # 10))%Q)
                (users s))
             (auctions s) (bids s)
             (replace (release now "DELIVERY_CONFIRMED" Escrow.RELEASED e)
                      (escrows s))
             (confirmations s) (disputes s)
             (ledger s
              ++ [TokenTransaction.mk next (Escrow.vendor e)
                    TokenTransaction.PAYOUT_VENDOR
                    (Escrow.tokenAmount e - Escrow.tokenAmount e * (1 # 10))%Q
                    TokenTransaction.SUCCESS (Some auctionId)
                    (Some (Escrow._id e));
                  TokenTransaction.mk (S next) (Escrow.vendor e)
                    TokenTransaction.PLATFORM_FEE
                    (Escrow.tokenAmount e * (1 # 10))%Q
                    TokenTransaction.SUCCESS (Some auctionId) None]))
          (S (S next)) now None).
Proof.
  intros He Ha. unfold releaseToVendor. run. rewrite He. run. rewrite Ha. run.
  destruct e; cbn. rewrite <- app_assoc. reflexivity.
Qed.

Lemma refundToBuyer_run (s : Store) (next : Id) (now : Time)
      (auctionId : Id) (reason : string) (e : Escrow.t) (a : Auction.t) :
  find (heldFor auctionId) (escrows s) = Some e ->
  byId auctionId (auctions s) = Some a ->
  refundToBuyer auctionId reason (boot s next now None)
  = (inr (release now reason Escrow.REFUNDED e),
     boot (mkStore
             (updateFirst (hasId (Escrow.buyer e))
                (credit (Escrow.tokenAmount e)) (users s))
             (auctions s) (bids s)
             (replace (release now reason Escrow.REFUNDED e) (escrows s))
             (confirmations s) (disputes s)
             (ledger s
              ++ [TokenTransaction.mk next (Escrow.buyer e)
                    TokenTransaction.ESCROW_REFUND (Escrow.tokenAmount e)
                    TokenTransaction.SUCCESS (Some auctionId)
                    (Some (Escrow._id e))]))
          (S next) now None).
Proof.
  intros He Ha. unfold refundToBuyer. run. rewrite He. run. rewrite Ha. run.
  destruct e; cbn. reflexivity.
Qed.

(** X5.  [releaseToVendor] on an auction with a HELD escrow of N tokens:
    the escrow becomes RELEASED, the vendor's balance grows by the payout,
    and the ledger gains a PAYOUT_VENDOR entry and a PLATFORM_FEE entry whose
    amounts are nine tenths and one tenth of N and add up to N.  No other
    user's document changes, and neither do the auctions, the bids, the
    delivery confirmations or the disputes. *)
Theorem releaseToVendor_splits_the_held_amount :
  forall (s : Store) (next : Id) (now : Time) (auctionId : Id)
         (e : Escrow.t) (a : Auction.t),
    find (heldFor auctionId) (escrows s) = Some e ->
    byId auctionId (auctions s) = Some a ->
    exists (w' : World) (payout fee : TokenTransaction.t),
      releaseToVendor auctionId (boot s next now None)
      = (inr (release now "DELIVERY_CONFIRMED" Escrow.RELEASED e), w')
      /\ escrows (db w')
         = replace (release now "DELIVERY_CONFIRMED" Escrow.RELEASED e)
                   (escrows s)
      /\ users (db w')
         = updateFirst (hasId (Escrow.vendor e))
                       (credit (TokenTransaction.amount payout)) (users s)
      /\ (forall u, u <> Escrow.vendor e ->
                    byId u (users (db w')) = byId u (users s))
      /\ ledger (db w') = (ledger s ++ [payout; fee])%list
      /\ TokenTransaction.type payout = TokenTransaction.PAYOUT_VENDOR
      /\ TokenTransaction.type fee = TokenTransaction.PLATFORM_FEE
      /\ (TokenTransaction.amount payout == Escrow.tokenAmount e * (9 # 10))%Q
      /\ (TokenTransaction.amount fee == Escrow.tokenAmount e * (1 # 10))%Q
      /\ (TokenTransaction.amount payout + TokenTransaction.amount fee
          == Escrow.tokenAmount e)%Q
      /\ auctions (db w') = auctions s
      /\ bids (db w') = bids s
      /\ confirmations (db w') = confirmations s
      /\ disputes (db w') = disputes s.
Proof.
  intros s next now auctionId e a He Ha.
  rewrite (releaseToVendor_run s next now auctionId e a He Ha).
  eexists.
  exists (TokenTransaction.mk next (Escrow.vendor e)
            TokenTransaction.PAYOUT_VENDOR
            (Escrow.tokenAmount e - Escrow.tokenAmount e * (1 # 10))%Q
            TokenTransaction.SUCCESS (Some auctionId) (Some (Escrow._id e))).
  exists (TokenTransaction.mk (S next) (Escrow.vendor e)
            TokenTransaction.PLATFORM_FEE (Escrow.tokenAmount e * (1 # 10))%Q
            TokenTransaction.SUCCESS (Some auctionId) None).
  split; [reflexivity|].
  cbn [db users escrows ledger auctions bids confirmations disputes boot
       TokenTransaction.amount TokenTransaction.type].
  split; [reflexivity|]. split; [reflexivity|].
  split.
  { intros u Hu. apply byId_updateFirst_other; [exact Hu|].
    intros d; destruct d; reflexivity. }
  split; [reflexivity|]. split; [reflexivity|]. split; [reflexivity|].
  split; [field|]. split; [reflexivity|]. split; [field|].
  repeat split.
Qed.

Lemma releaseToVendor_splits_the_held_amount_witness :
  exists (w' : World) (payout fee : TokenTransaction.t),
    releaseToVendor 10 (boot Scenario.closed 50 2000000 None)
    = (inr (release 2000000 "DELIVERY_CONFIRMED" Escrow.RELEASED
                    Scenario.hold), w')
    /\ escrows (db w')
       = replace (release 2000000 "DELIVERY_CONFIRMED" Escrow.RELEASED
                          Scenario.hold)
                 (escrows Scenario.closed)
    /\ users (db w')
       = updateFirst (hasId (Escrow.vendor Scenario.hold))
                     (credit (TokenTransaction.amount payout))
                     (users Scenario.closed)
    /\ (forall u, u <> Escrow.vendor Scenario.hold ->
                  byId u (users (db w')) = byId u (users Scenario.closed))
    /\ ledger (db w') = (ledger Scenario.closed ++ [payout; fee])%list
    /\ TokenTransaction.type payout = TokenTransaction.PAYOUT_VENDOR
    /\ TokenTransaction.type fee = TokenTransaction.PLATFORM_FEE
    /\ (TokenTransaction.amount payout
        == Escrow.tokenAmount Scenario.hold * (9 # 10))%Q
    /\ (TokenTransaction.amount fee
        == Escrow.tokenAmount Scenario.hold * (1 # 10))%Q
    /\ (TokenTransaction.amount payout + TokenTransaction.amount fee
        == Escrow.tokenAmount Scenario.hold)%Q
    /\ auctions (db w') = auctions Scenario.closed
    /\ bids (db w') = bids Scenario.closed
    /\ confirmations (db w') = confirmations Scenario.closed
    /\ disputes (db w') = disputes Scenario.closed.
Proof.
  apply (releaseToVendor_splits_the_held_amount
           Scenario.closed 50%nat 2000000%Z 10%nat Scenario.hold
           Scenario.lotClosed); reflexivity.
Defined.

(** X6.  [refundToBuyer] on an auction with a HELD escrow of N tokens: the
    escrow becomes REFUNDED with the reason given, the buyer's balance grows
    by the whole of N with no fee taken, and the ledger gains one
    ESCROW_REFUND entry of N.  No other user's document changes -- the
    buyer's escrowed balance is not read -- and neither do the auctions, the
    bids, the delivery confirmations or the disputes. *)
Theorem refundToBuyer_returns_the_whole_amount :
  forall (s : Store) (next : Id) (now : Time) (auctionId : Id)
         (reason : string) (e : Escrow.t) (a : Auction.t),
    find (heldFor auctionId) (escrows s) = Some e ->
    byId auctionId (auctions s) = Some a ->
    exists (w' : World),
      refundToBuyer auctionId reason (boot s next now None)
      = (inr (release now reason Escrow.REFUNDED e), w')
      /\ escrows (db w')
         = replace (release now reason Escrow.REFUNDED e) (escrows s)
      /\ users (db w')
         = updateFirst (hasId (Escrow.buyer e))
                       (credit (Escrow.tokenAmount e)) (users s)
      /\ (forall u, u <> Escrow.buyer e ->
                    byId u (users (db w')) = byId u (users s))
      /\ (forall u, User.escrowedBalance (credit (Escrow.tokenAmount e) u)
                    = User.escrowedBalance u)
      /\ ledger (db w')
         = (ledger s
            ++ [TokenTransaction.mk next (Escrow.buyer e)
                  TokenTransaction.ESCROW_REFUND (Escrow.tokenAmount e)
                  TokenTransaction.SUCCESS (Some auctionId)
                  (Some (Escrow._id e))])%list
      /\ auctions (db w') = auctions s
      /\ bids (db w') = bids s
      /\ confirmations (db w') = confirmations s
      /\ disputes (db w') = disputes s.
Proof.
  intros s next now auctionId reason e a He Ha.
  rewrite (refundToBuyer_run s next now auctionId reason e a He Ha).
  eexists. split; [reflexivity|].
  cbn [db users escrows ledger auctions bids confirmations disputes boot].
  repeat (split; [reflexivity|]).
  split.
  { intros u Hu. apply byId_updateFirst_other; [exact Hu|].
    intros d; destruct d; reflexivity. }
  split; [intros u; destruct u; reflexivity|].
  repeat split.
Qed.

Lemma refundToBuyer_returns_the_whole_amount_witness :
  exists (w' : World),
    refundToBuyer 10 "CANCELLED" (boot Scenario.closed 50 2000000 None)
    = (inr (release 2000000 "CANCELLED" Escrow.REFUNDED Scenario.hold), w')
    /\ escrows (db w')
       = replace (release 2000000 "CANCELLED" Escrow.REFUNDED Scenario.hold)
                 (escrows Scenario.closed)
    /\ users (db w')
       = updateFirst (hasId (Escrow.buyer Scenario.hold))
                     (credit (Escrow.tokenAmount Scenario.hold))
                     (users Scenario.closed)
    /\ (forall u, u <> Escrow.buyer Scenario.hold ->
                  byId u (users (db w')) = byId u (users Scenario.closed))
    /\ (forall u,
           User.escrowedBalance (credit (Escrow.tokenAmount Scenario.hold) u)
           = User.escrowedBalance u)
    /\ ledger (db w')
       = (ledger Scenario.closed
          ++ [TokenTransaction.mk 50 (Escrow.buyer Scenario.hold)
                TokenTransaction.ESCROW_REFUND
                (Escrow.tokenAmount Scenario.hold)
                TokenTransaction.SUCCESS (Some 10%nat)
                (Some (Escrow._id Scenario.hold))])%list
    /\ auctions (db w') = auctions Scenario.closed
    /\ bids (db w') = bids Scenario.closed
    /\ confirmations (db w') = confirmations Scenario.closed
    /\ disputes (db w') = disputes Scenario.closed.
Proof.
  apply (refundToBuyer_returns_the_whole_amount
           Scenario.closed 50%nat 2000000%Z 10%nat "CANCELLED"%string
           Scenario.hold Scenario.lotClosed); reflexivity.
Defined.

(** X7.  An escrow is settled once.  When the escrow ids are distinct and
    the auction has one HELD escrow, then after a successful
    [releaseToVendor], and likewise after a successful [refundToBuyer], a
    further release or refund for the auction throws "No active escrow
    found" and leaves the world as the first settlement left it. *)
Theorem held_escrow_is_settled_once :
  forall (s : Store) (next : Id) (now later : Time) (auctionId : Id)
         (reason reason' : string) (e : Escrow.t) (a : Auction.t),
    NoDup (map Escrow._id (escrows s)) ->
    find (heldFor auctionId) (escrows s) = Some e ->
    (forall x, In x (escrows s) -> heldFor auctionId x = true -> x = e) ->
    byId auctionId (auctions s) = Some a ->
    forall (w1 : World),
      (w1 = snd (releaseToVendor auctionId (boot s next now None))
       \/ w1 = snd (refundToBuyer auctionId reason (boot s next now None))) ->
      let w2 := mkWorld (db w1) None None (nextId w1) later in
      releaseToVendor auctionId w2
      = (inl (Error "No active escrow found"), w2)
      /\ refundToBuyer auctionId reason' w2
         = (inl (Error "No active escrow found"), w2).
Proof.
  intros s next now later auctionId reason reason' e a Hnd He Hone Ha w1 Hw1.
  assert (Hin : In e (escrows s)) by (apply find_some in He; tauto).
  assert (Hgone : find (heldFor auctionId) (escrows (db w1)) = None).
  { destruct Hw1 as [-> | ->].
    - rewrite (releaseToVendor_run s next now auctionId e a He Ha).
      cbn [snd db boot escrows].
      apply (find_replace_settled _ _ e);
        [exact Hnd | exact Hin | exact Hone | destruct e; reflexivity
        | apply heldFor_release; discriminate].
    - rewrite (refundToBuyer_run s next now auctionId reason e a He Ha).
      cbn [snd db boot escrows].
      apply (find_replace_settled _ _ e);
        [exact Hnd | exact Hin | exact Hone | destruct e; reflexivity
        | apply heldFor_release; discriminate]. }
  intros w2. subst w2.
  set (s1 := db w1) in *. set (n1 := nextId w1).
  unfold releaseToVendor, refundToBuyer. run.
  rewrite Hgone. split; reflexivity.
Qed.

Lemma held_escrow_is_settled_once_witness :
  let w1 := snd (releaseToVendor 10 (boot Scenario.closed 50 2000000 None)) in
  let w2 := mkWorld (db w1) None None (nextId w1) 3000000 in
  releaseToVendor 10 w2 = (inl (Error "No active escrow found"), w2)
  /\ refundToBuyer 10 "CANCELLED" w2
     = (inl (Error "No active escrow found"), w2).
Proof.
  apply (held_escrow_is_settled_once
           Scenario.closed 50%nat 2000000%Z 3000000%Z 10%nat
           "CANCELLED"%string "CANCELLED"%string Scenario.hold
           Scenario.lotClosed).
  - vm_compute. repeat constructor. simpl. tauto.
  - reflexivity.
  - intros x [<-|[]] _. reflexivity.
  - reflexivity.
  - left. reflexivity.
Defined.

(** X8.  The admin override settles nothing without a HELD escrow: when the
    escrow named is not stored, or its auction has no escrow in status HELD
    -- the escrow is DISPUTED, RELEASED or REFUNDED -- [adminEscrowAction]
    does not answer 200, whatever the action, and leaves the world as it
    was. *)
Theorem adminEscrowAction_needs_a_held_escrow :
  forall (s : Store) (next : Id) (now : Time) (escrowId : Id)
         (action : string) (reason : option string),
    (forall e, byId escrowId (escrows s) = Some e ->
               find (heldFor (Escrow.auction e)) (escrows s) = None) ->
    let w := boot s next now None in
    answered 200 (fst (adminEscrowAction escrowId action reason w)) = false
    /\ snd (adminEscrowAction escrowId action reason w) = w.
Proof.
  intros s next now escrowId action reason Hno w. subst w.
  unfold adminEscrowAction, releaseToVendor, refundToBuyer. run.
  destruct (byId escrowId (escrows s)) as [e|] eqn:E; run;
    [|split; reflexivity].
  specialize (Hno e eq_refl).
  destruct (String.eqb action "RELEASE"); run.
  { rewrite Hno. split; reflexivity. }
  destruct (String.eqb action "REFUND"); run.
  { rewrite Hno. split; reflexivity. }
  split; reflexivity.
Qed.

Lemma adminEscrowAction_needs_a_held_escrow_witness :
  let w := boot Disputed.store 50 2000000 None in
  answered 200 (fst (adminEscrowAction 30 "RELEASE" None w)) = false
  /\ snd (adminEscrowAction 30 "RELEASE" None w) = w.
Proof.
  apply (adminEscrowAction_needs_a_held_escrow
           Disputed.store 50%nat 2000000%Z 30%nat "RELEASE"%string None).
  intros e He. vm_compute in He. inversion He. reflexivity.
Defined.

Section Unique.
Context {A : Type} `{Document A}.

Lemma NoDup_id_inj (l : list A) (d e : A) :
  NoDup (map _id l) -> In d l -> In e l -> _id d = _id e -> d = e.
Proof.
  induction l as [|x l IH]; cbn; [tauto|].
  intros Hnd Hd He Hid. inversion Hnd as [|i l' Hnotin Hnd']; subst.
  destruct Hd as [<-|Hd], He as [<-|He]; auto.
  - exfalso. apply Hnotin. rewrite Hid. now apply in_map.
  - exfalso. apply Hnotin. rewrite <- Hid. now apply in_map.
Qed.

Lemma In_updateFirst (p : A -> bool) (f : A -> A) (l : list A) (d : A) :
  In d (updateFirst p f l) ->
  In d l \/ exists x, In x l /\ p x = true /\ d = f x.
Proof.
  induction l as [|x l IH]; cbn; [tauto|].
  destruct (p x) eqn:Ex; cbn.
  - intros [<-|Hd]; [right; exists x; auto | left; now right].
  - intros [<-|Hd]; [left; now left|].
    destruct (IH Hd) as [Hl | (y & Hy & Hpy & ->)]; [left; now right|].
    right. exists y. auto.
Qed.
End Unique.

Lemma updateAll_same {A : Type} (p : A -> bool) (l : list A) :
  updateAll p (fun d => d) l = l.
Proof.
  unfold updateAll. induction l as [|d l IH]; cbn; [reflexivity|].
  rewrite IH. now destruct (p d).
Qed.

(** X9.  [markDisputed] turns the auction's HELD escrow into a DISPUTED one
    and changes nothing else that is kept; when the escrow ids are distinct
    and that was the auction's one HELD escrow, a release, a refund and an
    admin override on it are then all refused and change nothing. *)
Theorem markDisputed_blocks_every_settlement :
  forall (s : Store) (next : Id) (now later : Time) (auctionId : Id)
         (action reason : string) (e : Escrow.t),
    NoDup (map Escrow._id (escrows s)) ->
    find (heldFor auctionId) (escrows s) = Some e ->
    (forall x, In x (escrows s) -> heldFor auctionId x = true -> x = e) ->
    let s' :=
      mkStore (users s) (auctions s) (bids s)
              (updateFirst (heldFor auctionId)
                           (Escrow.set_status Escrow.DISPUTED) (escrows s))
              (confirmations s) (disputes s) (ledger s) in
    let w' := boot s' next later None in
    markDisputed auctionId (boot s next now None)
    = (inr (Escrow.set_status Escrow.DISPUTED e), boot s' next now None)
    /\ releaseToVendor auctionId w'
       = (inl (Error "No active escrow found"), w')
    /\ refundToBuyer auctionId reason w'
       = (inl (Error "No active escrow found"), w')
    /\ answered 200
         (fst (adminEscrowAction (Escrow._id e) action (Some reason) w'))
       = false
    /\ snd (adminEscrowAction (Escrow._id e) action (Some reason) w') = w'.
Proof.
  intros s next now later auctionId action reason e Hnd He Hone s' w'.
  assert (Hgone : find (heldFor auctionId) (escrows s') = None).
  { apply (find_updateFirst_gone _ _ _ _ e);
      [exact Hnd | exact He | exact Hone|].
    destruct e; apply andb_false_r. }
  assert (Ha : Escrow.auction e = auctionId).
  { apply find_some in He. destruct He as [_ He].
    unfold heldFor in He. apply andb_prop in He.
    now apply Nat.eqb_eq. }
  subst w' s'. cbn [escrows] in Hgone.
  split; [|split; [|split]].
  - unfold markDisputed. run. rewrite He. run.
    rewrite updateAll_same. reflexivity.
  - unfold releaseToVendor. run.
    rewrite Hgone. reflexivity.
  - unfold refundToBuyer. run.
    rewrite Hgone. reflexivity.
  - unfold adminEscrowAction, releaseToVendor, refundToBuyer. run.
    match goal with
    | |- context [match ?x with Some _ => _ | None => _ end] =>
        destruct x as [d|] eqn:Ed
    end; run; [|split; reflexivity].
    assert (Hd : Escrow.auction d = auctionId).
    { pose proof (byId_id _ _ _ Ed) as Hid. cbn in Hid.
      apply byId_In in Ed. apply In_updateFirst in Ed.
      apply find_some in He. destruct He as [Hin Hheld].
      destruct Ed as [Hd | (x & Hx & Hpx & ->)].
      - rewrite (@NoDup_id_inj _ EscrowDocument (escrows s) d e Hnd Hd Hin Hid). exact Ha.
      - rewrite (Hone x Hx Hpx). destruct e; exact Ha. }
    rewrite Hd.
    destruct (String.eqb action "RELEASE"); run.
    { rewrite Hgone. split; reflexivity. }
    destruct (String.eqb action "REFUND"); run.
    { rewrite Hgone. split; reflexivity. }
    split; reflexivity.
Qed.

Lemma markDisputed_blocks_every_settlement_witness :
  let s' :=
    mkStore (users Scenario.closed) (auctions Scenario.closed)
            (bids Scenario.closed)
            (updateFirst (heldFor 10)
                         (Escrow.set_status Escrow.DISPUTED)
                         (escrows Scenario.closed))
            (confirmations Scenario.closed) (disputes Scenario.closed)
            (ledger Scenario.closed) in
  let w' := boot s' 50 3000000 None in
  markDisputed 10 (boot Scenario.closed 50 2000000 None)
  = (inr (Escrow.set_status Escrow.DISPUTED Scenario.hold),
     boot s' 50 2000000 None)
  /\ releaseToVendor 10 w' = (inl (Error "No active escrow found"), w')
  /\ refundToBuyer 10 "CANCELLED" w'
     = (inl (Error "No active escrow found"), w')
  /\ answered 200
       (fst (adminEscrowAction (Escrow._id Scenario.hold) "RELEASE"
                               (Some "CANCELLED"%string) w'))
     = false
  /\ snd (adminEscrowAction (Escrow._id Scenario.hold) "RELEASE"
                            (Some "CANCELLED"%string) w') = w'.
Proof.
  apply (markDisputed_blocks_every_settlement
           Scenario.closed 50%nat 2000000%Z 3000000%Z 10%nat
           "RELEASE"%string "CANCELLED"%string Scenario.hold).
  - vm_compute. repeat constructor. simpl. tauto.
  - reflexivity.
  - intros x [<-|[]] _. reflexivity.
Defined.

(** ** The delivery confirmation controller *)

(** X10.  [createConfirmation] on a stored auction whose highest bidder and
    vendor are stored users appends one delivery confirmation between the
    two, PENDING_DELIVERY for a digital item and PENDING_SHIPMENT for any
    other, with no delivery date; nothing else changes. *)
Theorem createConfirmation_awaits_by_kind :
  forall (s : Store) (next : Id) (now : Time) (auctionId b : Id)
         (a : Auction.t) (buyer vendor : User.t),
    byId auctionId (auctions s) = Some a ->
    Auction.highestBidder a = Some b ->
    byId b (users s) = Some buyer ->
    byId (Auction.vendor a) (users s) = Some vendor ->
    let confirmation :=
      DeliveryConfirmation.mk next auctionId (Auction.vendor a) b
        (if Auction.isDigital a then DeliveryConfirmation.PENDING_DELIVERY
         else DeliveryConfirmation.PENDING_SHIPMENT)
        None None in
    createConfirmation auctionId (boot s next now None)
    = (inr (Some confirmation),
       boot (mkStore (users s) (auctions s) (bids s) (escrows s)
                     (confirmations s ++ [confirmation]) (disputes s)
                     (ledger s))
            (S next) now None).
Proof.
  intros s next now auctionId b a buyer vendor Ha Hb Hu Hv.
  unfold createConfirmation. run. rewrite Ha. run. rewrite Hb, Hu, Hv. run.
  pose proof (byId_id _ _ _ Hu) as Iu. pose proof (byId_id _ _ _ Hv) as Iv.
  cbn in Iu, Iv. rewrite Iu, Iv. reflexivity.
Qed.

Lemma createConfirmation_awaits_by_kind_witness :
  createConfirmation 10 (boot Physical.store 50 2000000 None)
  = (inr (Some (DeliveryConfirmation.mk 50 10 1 3
                  DeliveryConfirmation.PENDING_SHIPMENT None None)),
     boot (mkStore (users Physical.store) (auctions Physical.store)
             (bids Physical.store) (escrows Physical.store)
             (confirmations Physical.store
              ++ [DeliveryConfirmation.mk 50 10 1 3
                    DeliveryConfirmation.PENDING_SHIPMENT None None])
             (disputes Physical.store) (ledger Physical.store))
          51 2000000 None).
Proof.
  apply (createConfirmation_awaits_by_kind
           Physical.store 50%nat 2000000%Z 10%nat 3%nat Physical.lot
           (User.mk 3 0 (Some 1000%Q)) Scenario.vendor);
    reflexivity.
Defined.

Lemma confirmDelivery_nothing_to_confirm (s : Store) (next : Id) (now : Time)
      (auctionId userId : Id) :
  find (awaitingBuyer auctionId userId) (confirmations s) = None ->
  confirmDelivery auctionId userId (boot s next now None)
  = (inr (Json 404 "Nothing to confirm"), boot s next now None).
Proof.
  intros Hc. unfold confirmDelivery. run. rewrite Hc. reflexivity.
Qed.

(** X11.  A physical item is confirmed only after its shipment.  While no
    delivery of the auction to the buyer is SHIPPED or PENDING_DELIVERY,
    [confirmDelivery] answers 404 and changes nothing.  [markShipped] by the
    vendor of a PENDING_SHIPMENT delivery answers 200 and changes that
    delivery's status to SHIPPED and nothing else; the delivery is then the
    one that the buyer's [confirmDelivery] finds. *)
Theorem shipment_opens_the_confirmation :
  forall (s : Store) (next : Id) (now : Time) (auctionId vendorId buyerId : Id)
         (c : DeliveryConfirmation.t),
    find (toShip auctionId vendorId) (confirmations s) = Some c ->
    DeliveryConfirmation.buyer c = buyerId ->
    (forall x, In x (confirmations s) ->
               awaitingBuyer auctionId buyerId x = false) ->
    let s' :=
      mkStore (users s) (auctions s) (bids s) (escrows s)
              (updateFirst (toShip auctionId vendorId)
                 (DeliveryConfirmation.set_status DeliveryConfirmation.SHIPPED)
                 (confirmations s))
              (disputes s) (ledger s) in
    confirmDelivery auctionId buyerId (boot s next now None)
    = (inr (Json 404 "Nothing to confirm"), boot s next now None)
    /\ markShipped auctionId vendorId (boot s next now None)
       = (inr (Json 200 "confirmation"), boot s' next now None)
    /\ find (awaitingBuyer auctionId buyerId) (confirmations s')
       = Some (DeliveryConfirmation.set_status DeliveryConfirmation.SHIPPED c).
Proof.
  intros s next now auctionId vendorId buyerId c Hc Hb Hnone s'.
  split; [|split].
  - apply confirmDelivery_nothing_to_confirm. now apply find_none_iff.
  - unfold markShipped. run. rewrite Hc. reflexivity.
  - subst s'. cbn [confirmations].
    apply find_updateFirst_new; [exact Hc | exact Hnone|].
    apply find_some in Hc. destruct Hc as [_ Hc].
    unfold toShip in Hc. unfold awaitingBuyer.
    destruct c; cbn in *. subst.
    apply andb_prop in Hc. destruct Hc as [Hc _].
    apply andb_prop in Hc. destruct Hc as [-> _].
    now rewrite Nat.eqb_refl.
Qed.

Lemma shipment_opens_the_confirmation_witness :
  let s' :=
    mkStore (users Physical.store) (auctions Physical.store)
            (bids Physical.store) (escrows Physical.store)
            (updateFirst (toShip 10 1)
               (DeliveryConfirmation.set_status DeliveryConfirmation.SHIPPED)
               (confirmations Physical.store))
            (disputes Physical.store) (ledger Physical.store) in
  confirmDelivery 10 3 (boot Physical.store 50 2000000 None)
  = (inr (Json 404 "Nothing to confirm"), boot Physical.store 50 2000000 None)
  /\ markShipped 10 1 (boot Physical.store 50 2000000 None)
     = (inr (Json 200 "confirmation"), boot s' 50 2000000 None)
  /\ find (awaitingBuyer 10 3) (confirmations s')
     = Some (DeliveryConfirmation.set_status DeliveryConfirmation.SHIPPED
               Physical.unshipped).
Proof.
  apply (shipment_opens_the_confirmation
           Physical.store 50%nat 2000000%Z 10%nat 1%nat 3%nat
           Physical.unshipped).
  - reflexivity.
  - reflexivity.
  - intros x [<-|[]]. reflexivity.
Defined.

(** X12.  [markShipped] answers 404 and changes nothing when the auction has
    no PENDING_SHIPMENT delivery of this vendor: for another user's request,
    for a digital item, and for a delivery already shipped. *)
Theorem markShipped_needs_a_pending_shipment :
  forall (s : Store) (next : Id) (now : Time) (auctionId userId : Id),
    (forall x, In x (confirmations s) ->
               DeliveryConfirmation.auction x = auctionId ->
               DeliveryConfirmation.vendor x = userId ->
               DeliveryConfirmation.status x
               <> DeliveryConfirmation.PENDING_SHIPMENT) ->
    markShipped auctionId userId (boot s next now None)
    = (inr (Json 404 "No pending shipment found"), boot s next now None).
Proof.
  intros s next now auctionId userId Hnone.
  assert (E : find (toShip auctionId userId) (confirmations s) = None).
  { apply find_none_iff. intros x Hx. specialize (Hnone x Hx).
    unfold toShip.
    destruct (Nat.eqb_spec (DeliveryConfirmation.auction x) auctionId);
      [|reflexivity].
    destruct (Nat.eqb_spec (DeliveryConfirmation.vendor x) userId);
      [|reflexivity].
    specialize (Hnone e e0).
    destruct (DeliveryConfirmation.status x); try reflexivity. congruence. }
  unfold markShipped. run. rewrite E. reflexivity.
Qed.

Lemma markShipped_needs_a_pending_shipment_witness :
  markShipped 10 1 (boot Scenario.closed 50 2000000 None)
  = (inr (Json 404 "No pending shipment found"),
     boot Scenario.closed 50 2000000 None).
Proof.
  apply (markShipped_needs_a_pending_shipment
           Scenario.closed 50%nat 2000000%Z 10%nat 1%nat).
  intros x [<-|[]] _ _. discriminate.
Defined.

Lemma confirmDelivery_marks_the_delivery (s : Store) (next : Id) (now : Time)
      (auctionId userId : Id) :
  answered 200 (fst (confirmDelivery auctionId userId (boot s next now None)))
  = true ->
  confirmations
    (db (snd (confirmDelivery auctionId userId (boot s next now None))))
  = updateFirst (awaitingBuyer auctionId userId)
      (fun c => DeliveryConfirmation.set_deliveredAt (Some now)
                  (DeliveryConfirmation.set_status
                     DeliveryConfirmation.DELIVERED c))
      (confirmations s).
Proof.
  unfold confirmDelivery, releaseEscrow.
  explore.
  all: try (intros H; discriminate H).
  all: intros _; reflexivity.
Qed.

(** X13.  A delivery is confirmed once.  When the ids of the delivery
    confirmations are distinct and at most one delivery of the auction to the
    buyer awaits confirmation, a [confirmDelivery] that answered 200 is
    followed by 404 "Nothing to confirm": the repeated request changes
    nothing, and no second payout is made. *)
Theorem confirmDelivery_confirms_once :
  forall (s : Store) (next : Id) (now later : Time) (auctionId userId : Id),
    NoDup (map DeliveryConfirmation._id (confirmations s)) ->
    (forall x y, In x (confirmations s) -> In y (confirmations s) ->
                 awaitingBuyer auctionId userId x = true ->
                 awaitingBuyer auctionId userId y = true -> x = y) ->
    let first := confirmDelivery auctionId userId (boot s next now None) in
    answered 200 (fst first) = true ->
    let w := boot (db (snd first)) (nextId (snd first)) later None in
    confirmDelivery auctionId userId w
    = (inr (Json 404 "Nothing to confirm"), w).
Proof.
  intros s next now later auctionId userId Hnd Hone first Hok w.
  subst w. apply confirmDelivery_nothing_to_confirm.
  subst first. rewrite (confirmDelivery_marks_the_delivery _ _ _ _ _ Hok).
  destruct (find (awaitingBuyer auctionId userId) (confirmations s))
    as [c|] eqn:Ec.
  - apply (find_updateFirst_gone _ _ _ _ c); [exact Hnd | exact Ec | |].
    + intros x Hx Hpx. apply find_some in Ec. destruct Ec as [Hc Hpc].
      now apply Hone.
    + unfold awaitingBuyer. destruct c; cbn. apply andb_false_r.
  - clear Hok. induction (confirmations s) as [|x l IH]; [reflexivity|].
    cbn in Ec |- *.
    destruct (awaitingBuyer auctionId userId x) eqn:Ex; [discriminate|].
    cbn. rewrite Ex. apply IH.
    + now inversion Hnd.
    + intros y z Hy Hz. apply Hone; now right.
    + exact Ec.
Qed.

Lemma confirmDelivery_confirms_once_witness :
  let first := confirmDelivery 10 3 (boot Scenario.closed 50 2000000 None) in
  let w := boot (db (snd first)) (nextId (snd first)) 3000000 None in
  confirmDelivery 10 3 w = (inr (Json 404 "Nothing to confirm"), w).
Proof.
  apply (confirmDelivery_confirms_once
           Scenario.closed 50%nat 2000000%Z 3000000%Z 10%nat 3%nat).
  - vm_compute. repeat constructor. simpl. tauto.
  - intros x y [<-|[]] [<-|[]] _ _. reflexivity.
  - vm_compute. reflexivity.
Defined.

Lemma openDispute_run (s : Store) (next : Id) (now : Time)
      (auctionId userId : Id) (reason : string) (c : DeliveryConfirmation.t) :
  find (disputable auctionId userId) (confirmations s) = Some c ->
  openDispute auctionId userId reason (boot s next now None)
  = (inr (Json 200 "confirmation"),
     boot (mkStore (users s) (auctions s) (bids s) (escrows s)
             (updateFirst (disputable auctionId userId)
                (fun c => DeliveryConfirmation.set_disputeReason (Some reason)
                            (DeliveryConfirmation.set_status
                               DeliveryConfirmation.DISPUTED c))
                (confirmations s))
             (disputes s) (ledger s))
          next now None).
Proof.
  intros Hc. unfold openDispute. run. rewrite Hc. reflexivity.
Qed.

(** X14.  [openDispute] by the buyer of a delivery that is not DELIVERED
    marks that delivery DISPUTED with the reason given and changes nothing
    else: the escrows, the disputes, the ledger and the balances are as they
    were, so that the escrow stays HELD and no dispute record is written.
    When the ids are distinct and that delivery is the only one of the
    auction to the buyer that could await confirmation, [confirmDelivery]
    then answers 404 and changes nothing. *)
Theorem openDispute_stops_the_confirmation :
  forall (s : Store) (next : Id) (now later : Time) (auctionId userId : Id)
         (reason : string) (c : DeliveryConfirmation.t),
    NoDup (map DeliveryConfirmation._id (confirmations s)) ->
    find (disputable auctionId userId) (confirmations s) = Some c ->
    (forall x, In x (confirmations s) ->
               awaitingBuyer auctionId userId x = true -> x = c) ->
    let s' :=
      mkStore (users s) (auctions s) (bids s) (escrows s)
              (updateFirst (disputable auctionId userId)
                 (fun c => DeliveryConfirmation.set_disputeReason (Some reason)
                             (DeliveryConfirmation.set_status
                                DeliveryConfirmation.DISPUTED c))
                 (confirmations s))
              (disputes s) (ledger s) in
    openDispute auctionId userId reason (boot s next now None)
    = (inr (Json 200 "confirmation"), boot s' next now None)
    /\ confirmDelivery auctionId userId (boot s' next later None)
       = (inr (Json 404 "Nothing to confirm"), boot s' next later None).
Proof.
  intros s next now later auctionId userId reason c Hnd Hc Hone s'.
  split; [exact (openDispute_run s next now auctionId userId reason c Hc)|].
  apply confirmDelivery_nothing_to_confirm. subst s'. cbn [confirmations].
  apply (find_updateFirst_gone _ _ _ _ c); [exact Hnd | exact Hc | exact Hone|].
  unfold awaitingBuyer. destruct c; cbn. apply andb_false_r.
Qed.

Lemma openDispute_stops_the_confirmation_witness :
  let s' :=
    mkStore (users Scenario.closed) (auctions Scenario.closed)
            (bids Scenario.closed) (escrows Scenario.closed)
            (updateFirst (disputable 10 3)
               (fun c => DeliveryConfirmation.set_disputeReason
                           (Some "not as described"%string)
                           (DeliveryConfirmation.set_status
                              DeliveryConfirmation.DISPUTED c))
               (confirmations Scenario.closed))
            (disputes Scenario.closed) (ledger Scenario.closed) in
  openDispute 10 3 "not as described" (boot Scenario.closed 50 2000000 None)
  = (inr (Json 200 "confirmation"), boot s' 50 2000000 None)
  /\ confirmDelivery 10 3 (boot s' 50 3000000 None)
     = (inr (Json 404 "Nothing to confirm"), boot s' 50 3000000 None).
Proof.
  apply (openDispute_stops_the_confirmation
           Scenario.closed 50%nat 2000000%Z 3000000%Z 10%nat 3%nat
           "not as described"%string Scenario.awaited).
  - vm_compute. repeat constructor. simpl. tauto.
  - reflexivity.
  - intros x [<-|[]] _. reflexivity.
Defined.

Ltac strings :=
  repeat match goal with
         | |- context [String.eqb ?a ?b] =>
             let v := eval vm_compute in (String.eqb a b) in
             change (String.eqb a b) with v
         end.

(** X15.  The delivery controller's [resolveDispute] with RELEASE_TO_VENDOR
    is all or nothing, whatever [refundBuyer] is and whatever the status of
    the delivery: with a HELD escrow of the auction it answers 200, and the
    delivery is DELIVERED, the escrow RELEASED, the vendor credited and the
    payout and fee entries appended; with none it answers 500 and the
    database is as it was, the delivery's new status included. *)
Theorem resolveDispute_releases_or_leaves :
  forall (refundBuyer : Id -> Id -> M unit)
         (s : Store) (next : Id) (now : Time) (confirmationId : Id)
         (c : DeliveryConfirmation.t),
    byId confirmationId (confirmations s) = Some c ->
    let auctionId := DeliveryConfirmation.auction c in
    DeliveryConfirmationController.resolveDispute
      refundBuyer confirmationId "RELEASE_TO_VENDOR" (boot s next now None)
    = match find (heldFor auctionId) (escrows s) with
      | None => (inr (Json 500 "Resolution failed"), boot s next now None)
      | Some e =>
          let fee := (Escrow.tokenAmount e * (1 # 10))%Q in
          let payout := (Escrow.tokenAmount e - fee)%Q in
          let e' := release now "DELIVERY_CONFIRMED" Escrow.RELEASED e in
          (inr (Json 200 "success"),
           boot (mkStore
                   (updateFirst (hasId (Escrow.vendor e)) (credit payout)
                                (users s))
                   (auctions s) (bids s) (replace e' (escrows s))
                   (replace (DeliveryConfirmation.set_status
                               DeliveryConfirmation.DELIVERED c)
                            (confirmations s))
                   (disputes s)
                   (ledger s
                    ++ [TokenTransaction.mk next (Escrow.vendor e)
                          TokenTransaction.PAYOUT_VENDOR payout
                          TokenTransaction.SUCCESS (Some auctionId)
                          (Some (Escrow._id e));
                        TokenTransaction.mk (S next) (Escrow.vendor e)
                          TokenTransaction.PLATFORM_FEE fee
                          TokenTransaction.SUCCESS (Some auctionId)
                          (Some (Escrow._id e))]))
                (S (S next)) now None)
      end.
Proof.
  intros refundBuyer s next now confirmationId c Hc auctionId. subst auctionId.
  unfold DeliveryConfirmationController.resolveDispute, releaseEscrow.
  run. rewrite Hc. strings. run.
  cbn [DeliveryConfirmation.auction DeliveryConfirmation.set_status].
  destruct (find (heldFor (DeliveryConfirmation.auction c)) (escrows s))
    as [e|]; run; [|reflexivity].
  destruct e, c; cbn. rewrite <- app_assoc. reflexivity.
Qed.

Lemma resolveDispute_releases_or_leaves_witness :
  DeliveryConfirmationController.resolveDispute
    (fun _ _ => ret tt) 40 "RELEASE_TO_VENDOR"
    (boot Disputed.store 50 2000000 None)
  = (inr (Json 500 "Resolution failed"), boot Disputed.store 50 2000000 None).
Proof.
  apply (resolveDispute_releases_or_leaves
           (fun _ _ => ret tt) Disputed.store 50%nat 2000000%Z 40%nat
           Scenario.awaited).
  reflexivity.
Defined.

(** X16.  [refundBuyer], which the delivery controller's [resolveDispute]
    calls for REFUND_BUYER, is bound to no function there.  With a call that
    throws, the resolution answers 500 and the database is as it was: the
    delivery is not CANCELLED and nothing is refunded. *)
Theorem resolveDispute_cannot_refund :
  forall (refundBuyer : Id -> Id -> M unit)
         (s : Store) (next : Id) (now : Time) (confirmationId : Id),
    throws refundBuyer ->
    byId confirmationId (confirmations s) <> None ->
    DeliveryConfirmationController.resolveDispute
      refundBuyer confirmationId "REFUND_BUYER" (boot s next now None)
    = (inr (Json 500 "Resolution failed"), boot s next now None).
Proof.
  intros refundBuyer s next now confirmationId Hthrows Hc.
  destruct (byId confirmationId (confirmations s)) as [c|] eqn:Ec;
    [clear Hc | congruence].
  unfold DeliveryConfirmationController.resolveDispute.
  run. rewrite Ec. strings. run.
  match goal with
  | |- context [refundBuyer ?a ?b ?w] =>
      destruct (Hthrows a b w) as [e He]; rewrite He
  end.
  reflexivity.
Qed.

Lemma resolveDispute_cannot_refund_witness :
  DeliveryConfirmationController.resolveDispute
    (fun _ _ => throw (Error "refundBuyer is not defined")) 40 "REFUND_BUYER"
    (boot Disputed.store 50 2000000 None)
  = (inr (Json 500 "Resolution failed"), boot Disputed.store 50 2000000 None).
Proof.
  apply (resolveDispute_cannot_refund
           (fun _ _ => throw (Error "refundBuyer is not defined"))
           Disputed.store 50%nat 2000000%Z 40%nat).
  - intros a b w. eexists. reflexivity.
  - vm_compute. discriminate.
Defined.

(** ** The dispute controller *)







(** X20.  [assignAdmin] does not read the dispute's status: a stored
    dispute, RESOLVED ones included, is put UNDER_REVIEW, and nothing else
    changes. *)
Theorem assignAdmin_reopens_any_dispute :
  forall (s : Store) (next : Id) (now : Time) (disputeId : Id) (d : Dispute.t),
    byId disputeId (disputes s) = Some d ->
    let s' :=
      mkStore (users s) (auctions s) (bids s) (escrows s) (confirmations s)
              (updateFirst (hasId disputeId)
                 (DisputeController.set_status Dispute.UNDER_REVIEW)
                 (disputes s))
              (ledger s) in
    DisputeController.assignAdmin disputeId (boot s next now None)
    = (inr (Json 200 "dispute"), boot s' next now None)
    /\ byId disputeId (disputes s')
       = Some (DisputeController.set_status Dispute.UNDER_REVIEW d).
Proof.
  intros s next now disputeId d Hd s'. subst s'. split.
  - unfold DisputeController.assignAdmin. run.
    unfold byId in Hd. rewrite Hd. reflexivity.
  - cbn [disputes]. rewrite byId_updateFirst_same.
    + now rewrite Hd.
    + intros x; destruct x; reflexivity.
Qed.

Lemma assignAdmin_reopens_any_dispute_witness :
  let d := Dispute.mk 45 10 30 3 1 "not as described" Dispute.RESOLVED in
  let s :=
    mkStore (users Disputed.store) (auctions Disputed.store)
            (bids Disputed.store) (escrows Disputed.store)
            (confirmations Disputed.store) [d] (ledger Disputed.store) in
  let s' :=
    mkStore (users s) (auctions s) (bids s) (escrows s) (confirmations s)
            (updateFirst (hasId 45)
               (DisputeController.set_status Dispute.UNDER_REVIEW)
               (disputes s))
            (ledger s) in
  DisputeController.assignAdmin 45 (boot s 50 2000000 None)
  = (inr (Json 200 "dispute"), boot s' 50 2000000 None)
  /\ byId 45 (disputes s')
     = Some (DisputeController.set_status Dispute.UNDER_REVIEW d).
Proof.
  apply (assignAdmin_reopens_any_dispute
           (mkStore (users Disputed.store) (auctions Disputed.store)
              (bids Disputed.store) (escrows Disputed.store)
              (confirmations Disputed.store)
              [Dispute.mk 45 10 30 3 1 "not as described" Dispute.RESOLVED]
              (ledger Disputed.store))
           50%nat 2000000%Z 45%nat
           (Dispute.mk 45 10 30 3 1 "not as described" Dispute.RESOLVED)).
  reflexivity.
Defined.



(** ** The auction controller *)







(** ** The bid controller *)

Section Latest.
Context {A : Type} (key : A -> Z) (p : A -> bool).


End Latest.











Lemma retractBid_step (s : Store) (next : Id) (now : Time) (bidId userId : Id)
      (bid : Bid.t) (auction : Auction.t) (user : User.t) :
  byId bidId (bids s) = Some bid ->
  Bid.bidder bid = userId ->
  byId (Bid.auction bid) (auctions s) = Some auction ->
  (now <= Auction.endTime auction)%Z ->
  byId userId (users s) = Some user ->
  exists (s' : Store) (bid' : Bid.t) (auction' : Auction.t),
    retractBid bidId userId (boot s next now None)
    = (inr (Json 200 "refunded"), boot s' next now None)
    /\ byId bidId (bids s') = Some bid'
    /\ Bid.bidder bid' = userId
    /\ Bid.auction bid' = Bid.auction bid
    /\ Bid.amount bid' = Bid.amount bid
    /\ Bid.isRetracted bid' = true
    /\ byId (Bid.auction bid) (auctions s') = Some auction'
    /\ Auction.endTime auction' = Auction.endTime auction
    /\ byId userId (users s')
       = Some (credit (Bid.amount bid - retractionPenaltyOf (Bid.amount bid))
                      user)
    /\ (forall i, i <> userId -> byId i (users s') = byId i (users s)).
Proof.
  intros Hb Hu Ha Hend Hus.
  pose proof (byId_id _ _ _ Hb) as Ib. cbn in Ib.
  pose proof (byId_id _ _ _ Ha) as Ia. cbn in Ia.
  pose proof (byId_id _ _ _ Hus) as Iu. cbn in Iu.
  assert (Egt : (now >? Auction.endTime auction)%Z = false)
    by (rewrite Z.gtb_ltb; apply Z.ltb_ge; lia).
  assert (Hb' : byId bidId
                  (replace (Bid.set_retractionPenalty
                              (Some (retractionPenaltyOf (Bid.amount bid)))
                              (Bid.set_isRetracted true bid)) (bids s))
                = Some (Bid.set_retractionPenalty
                          (Some (retractionPenaltyOf (Bid.amount bid)))
                          (Bid.set_isRetracted true bid))).
  { apply (byId_replace_at (A := Bid.t)) with (x := bid); [|exact Hb].
    destruct bid; exact Ib. }
  assert (Hu' : byId userId
                  (replace (credit (Bid.amount bid
                                    - retractionPenaltyOf (Bid.amount bid))
                                   user) (users s))
                = Some (credit (Bid.amount bid
                                - retractionPenaltyOf (Bid.amount bid)) user)).
  { apply (byId_replace_at (A := User.t)) with (x := user); [|exact Hus].
    destruct user; exact Iu. }
  assert (Hoth : forall i, i <> userId ->
                   byId i (replace (credit (Bid.amount bid
                                            - retractionPenaltyOf
                                                (Bid.amount bid))
                                           user) (users s))
                   = byId i (users s)).
  { intros i Hi. apply byId_replace_other. destruct user; cbn in *. congruence. }
  unfold retractBid. run. rewrite Hb. run. rewrite Hu, Nat.eqb_refl.
  cbn [negb]. rewrite Ha. run. rewrite Egt. run.
  cbn [Bid.bidder Bid.amount Bid.auction Bid.set_retractionPenalty
       Bid.set_isRetracted].
  rewrite Hu, Hus. run.
  destruct (sameId (Auction.highestBidder auction) userId); run.
  - eexists. eexists. eexists.
    split; [reflexivity|]. cbn [bids auctions users].
    split; [exact Hb'|].
    split; [destruct bid; exact Hu|].
    split; [destruct bid; reflexivity|].
    split; [destruct bid; reflexivity|].
    split; [destruct bid; reflexivity|].
    split.
    { apply (byId_replace_at (A := Auction.t)) with (x := auction);
        [|exact Ha].
      destruct auction; exact Ia. }
    split; [destruct auction; reflexivity|].
    split; [exact Hu' | exact Hoth].
  - eexists. eexists. eexists.
    split; [reflexivity|]. cbn [bids auctions users].
    split; [exact Hb'|].
    split; [destruct bid; exact Hu|].
    split; [destruct bid; reflexivity|].
    split; [destruct bid; reflexivity|].
    split; [destruct bid; reflexivity|].
    split; [exact Ha|].
    split; [reflexivity|].
    split; [exact Hu' | exact Hoth].
Qed.

(** X27.  [retractBid] does not read [isRetracted]: the bidder's request on
    a bid of an auction that has not ended is answered 200 on each of n
    successive calls, and each adds the amount less the penalty to the
    bidder's balance.  The escrowed balance and every other user are as
    they were. *)
Theorem retractBid_refunds_on_every_call :
  forall (n : nat) (s : Store) (next : Id) (now : Time) (bidId userId : Id)
         (bid : Bid.t) (auction : Auction.t) (user : User.t),
    byId bidId (bids s) = Some bid ->
    Bid.bidder bid = userId ->
    byId (Bid.auction bid) (auctions s) = Some auction ->
    (now <= Auction.endTime auction)%Z ->
    byId userId (users s) = Some user ->
    exists (s' : Store) (user' : User.t),
      repeatedly n (retractBid bidId userId) (boot s next now None)
      = (inr (repeat (Json 200 "refunded") n), boot s' next now None)
      /\ byId userId (users s') = Some user'
      /\ (User.balance user'
          == User.balance user
             + inject_Z (Z.of_nat n)
               * (Bid.amount bid - retractionPenaltyOf (Bid.amount bid)))%Q
      /\ User.escrowedBalance user' = User.escrowedBalance user
      /\ (forall i, i <> userId -> byId i (users s') = byId i (users s)).
Proof.
  induction n as [|n IH];
    intros s next now bidId userId bid auction user Hb Hu Ha Hend Hus.
  - exists s, user. cbn. repeat split; try reflexivity; try assumption.
    rewrite Qmult_0_l, Qplus_0_r. reflexivity.
  - destruct (retractBid_step s next now bidId userId bid auction user
                Hb Hu Ha Hend Hus)
      as (s1 & bid1 & auction1 & Hrun & Hb1 & Hu1 & Ha1 & Hx1 & _ & Hau1
          & Hend1 & Hus1 & Hoth1).
    rewrite <- Ha1 in Hau1. rewrite <- Hend1 in Hend.
    destruct (IH s1 next now bidId userId bid1 auction1 _
                Hb1 Hu1 Hau1 Hend Hus1)
      as (s' & user' & Hrep & Hus' & Hbal & Hesc & Hoth).
    exists s', user'. split.
    + cbn [repeatedly repeat]. unfold bind at 1. rewrite Hrun.
      unfold bind at 1. rewrite Hrep. reflexivity.
    + split; [exact Hus'|]. split; [|split].
      * rewrite Hbal, inject_nat_succ, Hx1. destruct user; cbn. ring.
      * rewrite Hesc. destruct user; reflexivity.
      * intros i Hi. rewrite (Hoth i Hi). now apply Hoth1.
Qed.

Lemma retractBid_refunds_on_every_call_witness :
  exists (s' : Store) (user' : User.t),
    repeatedly 2 (retractBid 20 2) (boot Bidding.store 50 2000 None)
    = (inr (repeat (Json 200 "refunded") 2), boot s' 50 2000 None)
    /\ byId 2 (users s') = Some user'
    /\ (User.balance user'
        == User.balance Bidding.alice
           + inject_Z (Z.of_nat 2)
             * (Bid.amount Bidding.bid
                - retractionPenaltyOf (Bid.amount Bidding.bid)))%Q
    /\ User.escrowedBalance user' = User.escrowedBalance Bidding.alice
    /\ (forall i, i <> 2%nat ->
                  byId i (users s') = byId i (users Bidding.store)).
Proof.
  apply (retractBid_refunds_on_every_call
           2%nat Bidding.store 50%nat 2000%Z 20%nat 2%nat Bidding.bid
           Bidding.lot Bidding.alice).
  - reflexivity.
  - reflexivity.
  - reflexivity.
  - vm_compute. discriminate.
  - reflexivity.
Defined.

(** X28.  The penalty of a retraction is a tenth of the amount and at least
    half a token: for a bid of five tokens or more the refund is nine tenths
    of the amount, for a smaller bid it is the amount less half a token, and
    for a bid below half a token it is negative, so that the retraction
    lowers the balance. *)
Theorem retraction_penalty_is_a_tenth_or_half_a_token :
  forall (amount : Q),
    let penalty := retractionPenaltyOf amount in
    (1 # 2 <= penalty)%Q
    /\ (amount * (1 # 10) <= penalty)%Q
    /\ ((5 <= amount)%Q -> (amount - penalty == amount * (9 # 10))%Q)
    /\ ((amount <= 5)%Q -> (amount - penalty == amount - (1 # 2))%Q)
    /\ ((amount < 1 # 2)%Q <-> (amount - penalty < 0)%Q).
Proof.
  intros amount penalty. subst penalty. unfold retractionPenaltyOf.
  destruct (Q.max_spec (amount * (1 # 10)) (1 # 2)) as [[Hlt ->] | [Hle ->]].
  - repeat split; try lra.
  - repeat split; try lra.
Qed.

(** X29.  [confirmReceipt] pays only the winner of an auction with a stored
    vendor and a stored winning amount: in every other case -- the caller
    is not the highest bidder, or the auction, its vendor or its
    [winningBidAmount] is missing -- it does not answer 200 and the world is
    as it was. *)
Theorem confirmReceipt_refuses_and_leaves :
  forall (s : Store) (next : Id) (now : Time) (auctionId userId : Id),
    (forall a v W,
        byId auctionId (auctions s) = Some a ->
        Auction.highestBidder a = Some userId ->
        byId (Auction.vendor a) (users s) = Some v ->
        Auction.winningBidAmount a = Some W -> False) ->
    let done := confirmReceipt auctionId userId (boot s next now None) in
    answered 200 (fst done) = false /\ snd done = boot s next now None.
Proof.
  intros s next now auctionId userId Hno done. subst done.
  unfold confirmReceipt. run.
  destruct (byId auctionId (auctions s)) as [a|] eqn:Ha; run;
    [|split; reflexivity].
  destruct (sameId (Auction.highestBidder a) userId) eqn:Hb; cbn [negb]; run;
    [|split; reflexivity].
  cbn [Auction.vendor Auction.winningBidAmount Auction.set_vendorPaid
       Auction.set_winnerConfirmed].
  destruct (byId (Auction.vendor a) (users s)) as [v|] eqn:Hv; run;
    [|split; reflexivity].
  destruct (Auction.winningBidAmount a) as [W|] eqn:HW; run;
    [|split; reflexivity].
  exfalso. apply (Hno a v W eq_refl); auto.
  unfold sameId in Hb. destruct (Auction.highestBidder a) as [j|];
    [|discriminate].
  apply Nat.eqb_eq in Hb. now subst.
Qed.

Lemma confirmReceipt_refuses_and_leaves_witness :
  let done := confirmReceipt 10 2 (boot Scenario.closed 50 2000000 None) in
  answered 200 (fst done) = false
  /\ snd done = boot Scenario.closed 50 2000000 None.
Proof.
  apply (confirmReceipt_refuses_and_leaves
           Scenario.closed 50%nat 2000000%Z 10%nat 2%nat).
  intros a v W Ha Hb. vm_compute in Ha. injection Ha as <-. discriminate Hb.
Defined.
